(** * The Telegram GPT bot of bot.ts: update handlers over an explicit world

    bot.ts wires grammY handlers to three collaborators: the chat platform,
    a Mongo store (User, Chat, Message) and the completion / image APIs.
    The handlers are embedded as programs of a small state-and-exception
    monad.  The world carries the store, the grammY session, the state of
    the image conversation and the trace of requests the handlers issue.
    The conditions of an update say which store calls are rejected, what the
    remote APIs answer and which requests the platform refuses. *)

From Stdlib Require Import ZArith List String Bool Arith Lia Sorted Permutation.
Import ListNotations.

Local Open Scope string_scope.
Local Open Scope list_scope.
Local Open Scope nat_scope.

(** ** Data model *)

(** [ctx.from]: the fields of grammY's [User] that bot.ts reads. *)
Record TelegramUser := mkTelegramUser {
  id : Z;
  first_name : string;
  username : option string
}.

(** Mongo [_id] values.  [chat._id.toString()] is kept as the identifier
    itself: the session stores it and [Chat.findById] reads it back. *)
Definition ObjectId := nat.

(** Values of [Date]; [createdAt] and [updatedAt] hold them. *)
Definition Timestamp := nat.

Inductive ImageGenerationQuality := STANDARD | HD.

(** The string value of each member of the enum, as sent in callback data
    and shown on the quality keyboard. *)
Definition quality_value (q : ImageGenerationQuality) : string :=
  match q with STANDARD => "standard" | HD => "hd" end.

(** The [role] of a message: ['user'] or ['assistant']. *)
Inductive Role := role_user | role_assistant.

Record UserDoc := mkUser {
  user_id : ObjectId;
  telegramId : Z;
  firstName : string;
  userName : option string;
  selectedModel : string
}.

Record ChatDoc := mkChat {
  chat_id : ObjectId;
  chat_userId : ObjectId;
  chat_createdAt : Timestamp;
  updatedAt : Timestamp
}.

Record MessageDoc := mkMessage {
  message_id : ObjectId;
  chatId : ObjectId;
  userId : ObjectId;
  role : Role;
  content : string;
  createdAt : Timestamp
}.

Record Store := mkStore {
  users : list UserDoc;
  chats : list ChatDoc;
  messages : list MessageDoc
}.

(** [SessionData]: the active chat and the image quality. *)
Record SessionData := mkSession {
  session_chatId : option ObjectId;
  imageQuality : ImageGenerationQuality
}.

(** [session({ initial })] of bot.ts. *)
Definition initial : SessionData :=
  {| session_chatId := None; imageQuality := STANDARD |}.

(** Identifier of a message sent to the platform ([ctx.reply] resolves to
    it; [editText] addresses it). *)
Definition MessageRef := nat.

(** State of the conversations plugin for this chat: the image
    conversation is either not running or suspended waiting for the
    description of the image. *)
Inductive Conversation := AwaitingPrompt.

(** Requests issued to the collaborators, in the order they are made. *)
Inductive Event :=
| Reply (m : MessageRef) (text : string)
| ReplyKeyboard (m : MessageRef) (text : string) (buttons : list (string * string))
| EditText (m : MessageRef) (text : string)
| AnswerCallbackQuery (text : option string)
| ConversationEnter
| ConversationExit
| Completion (history : list MessageDoc) (telegramId : Z) (model : string)
| ImageRequest (prompt : string) (quality : ImageGenerationQuality)
| SendImage (image : string)
| LogError (context : string).

Record World := mkWorld {
  store : Store;
  session : SessionData;
  conversation : option Conversation;
  clock : Timestamp;
  next_oid : ObjectId;
  next_ref : MessageRef;
  trace : list Event
}.

(** Calls to the store; each may be rejected by the database. *)
Inductive StoreCall :=
| UserFindOne (telegramId : Z)
| UserCreate (telegramId : Z)
| UserSave (u : ObjectId)
| ChatCreate (userId : ObjectId)
| ChatFindLatest (userId : ObjectId)
| ChatFindById (c : ObjectId)
| ChatSave (c : ObjectId)
| MessageCreate (chatId : ObjectId) (r : Role)
| MessageFind (chatId : ObjectId).

(** Constants imported by bot.ts from modules that are not part of the
    verified file ([src/utils/consts], [src/types/types], the User schema,
    the texts of the image conversation). *)
Record Config := mkConfig {
  MAX_HISTORY_LENGTH : Z;
  START_MESSAGE : string;
  HELP_MESSAGE : string;
  AiModelsLabels : list (string * string);
  DEFAULT_MODEL : string;
  IMAGE_PROMPT_MESSAGE : string;
  IMAGE_ERROR_MESSAGE : string
}.

(** What the collaborators do during one update. *)
Record Env := mkEnv {
  rejects : StoreCall -> bool;
  (** Modelled from the spec: [answerWithChatGPT] of src/utils/gpt, which
      returns the generated text or an empty/absent result and never
      raises. *)
  answerWithChatGPT : list MessageDoc -> Z -> string -> option string;
  (** Modelled from the spec: the remote image API used by the image
      conversation; [None] is a failure. *)
  generateImage : string -> ImageGenerationQuality -> option string;
  (** [process.env.IMAGE_QUALITY_CHANGE_AVAILABLE] is set and non-empty. *)
  IMAGE_QUALITY_CHANGE_AVAILABLE : bool
}.

(** The two errors of a request to the platform that [bot.catch] tells
    apart. *)
Inductive PlatformError := GrammyError | HttpError.

Definition error_name (err : PlatformError) : string :=
  match err with
  | GrammyError => "GrammyError"
  | HttpError => "HttpError"
  end.

(** The conditions of one update: what the store and the remote APIs do,
    and which requests the platform refuses (an awaited request that is
    refused throws and has no effect). *)
Record Conditions := mkConditions {
  environment : Env;
  refuses : Event -> option PlatformError
}.

(** An environment in which the platform accepts every request.  A
    statement about a handler run in an environment [e : Env] is a
    statement about the handler under [accepting e]. *)
Definition accepting (e : Env) : Conditions :=
  {| environment := e; refuses := fun _ => None |}.

Coercion accepting : Env >-> Conditions.

(** ** Arrays *)

(** [Array.prototype.slice(start)]: a negative [start] counts from the end,
    and both ends are clamped to the array. *)
Definition slice {A : Type} (start : Z) (l : list A) : list A :=
  let len := Z.of_nat (List.length l) in
  let k := if (start <? 0)%Z then Z.max (len + start) 0 else Z.min start len in
  skipn (Z.to_nat k) l.

(** JavaScript truthiness of an optional string: [undefined], [null] and
    the empty string are falsy. *)
Definition truthy (s : option string) : bool :=
  match s with
  | None => false
  | Some s => negb (String.eqb s "")
  end.

(** ** The store *)

(** [.sort({ createdAt: 1 })]: ascending by creation time, ties kept in
    stored order. *)
Fixpoint insert_createdAt (m : MessageDoc) (l : list MessageDoc) : list MessageDoc :=
  match l with
  | [] => [m]
  | x :: r => if createdAt m <=? createdAt x then m :: l else x :: insert_createdAt m r
  end.

Fixpoint sort_createdAt (l : list MessageDoc) : list MessageDoc :=
  match l with
  | [] => []
  | m :: r => insert_createdAt m (sort_createdAt r)
  end.

(** [Message.find({ chatId }).sort({ createdAt: 1 }).lean()] on a store. *)
Definition find_messages (st : Store) (c : ObjectId) : list MessageDoc :=
  sort_createdAt (filter (fun m => chatId m =? c) (messages st)).

(** [User.findOne({ telegramId })]. *)
Definition find_user (st : Store) (t : Z) : option UserDoc :=
  find (fun u => (telegramId u =? t)%Z) (users st).

(** [Chat.findOne({ userId }).sort({ createdAt: -1 })]: the most recently
    created chat of the user. *)
Fixpoint latest (l : list ChatDoc) : option ChatDoc :=
  match l with
  | [] => None
  | c :: r =>
      match latest r with
      | None => Some c
      | Some d => if chat_createdAt d <=? chat_createdAt c then Some c else Some d
      end
  end.

Definition find_latest_chat (st : Store) (u : ObjectId) : option ChatDoc :=
  latest (filter (fun c => chat_userId c =? u) (chats st)).

(** [Chat.findById(chatId)]. *)
Definition find_chat (st : Store) (c : ObjectId) : option ChatDoc :=
  find (fun d => chat_id d =? c) (chats st).

(** [chat.save()]: the stored document with this identifier is replaced. *)
Definition save_chat (d : ChatDoc) (l : list ChatDoc) : list ChatDoc :=
  map (fun x => if chat_id x =? chat_id d then d else x) l.

Definition save_user (d : UserDoc) (l : list UserDoc) : list UserDoc :=
  map (fun x => if user_id x =? user_id d then d else x) l.

(** ** Handlers as programs

    An [async] handler either returns or throws; the world it has built so
    far is kept in both cases. *)

Inductive Result (A : Type) :=
| Returned (a : A)
| Threw (error : string).

Arguments Returned {A} a.
Arguments Threw {A} error.

Definition Handler (A : Type) := Conditions -> World -> Result A * World.

Definition ret {A : Type} (a : A) : Handler A :=
  fun _ w => (Returned a, w).

Definition bind {A B : Type} (m : Handler A) (k : A -> Handler B) : Handler B :=
  fun e w =>
    match m e w with
    | (Returned a, w') => k a e w'
    | (Threw err, w') => (Threw err, w')
    end.

(** [try { body } catch (error) { handler }]. *)
Definition try_catch (body : Handler unit) (handler : string -> Handler unit) : Handler unit :=
  fun e w =>
    match body e w with
    | (Returned a, w') => (Returned a, w')
    | (Threw err, w') => handler err e w'
    end.

Declare Scope handler_scope.
Delimit Scope handler_scope with handler.
Bind Scope handler_scope with Handler.

Notation "x <- m ;; k" := (bind m (fun x => k))
  (at level 100, m at next level, right associativity) : handler_scope.
Notation "m ;; k" := (bind m (fun _ => k))
  (at level 100, right associativity) : handler_scope.

Local Open Scope handler_scope.

Definition set_store (st : Store) (w : World) : World :=
  mkWorld st (session w) (conversation w) (clock w) (next_oid w) (next_ref w) (trace w).

Definition set_session (s : SessionData) (w : World) : World :=
  mkWorld (store w) s (conversation w) (clock w) (next_oid w) (next_ref w) (trace w).

Definition set_conversation (c : option Conversation) (w : World) : World :=
  mkWorld (store w) (session w) c (clock w) (next_oid w) (next_ref w) (trace w).

Definition read {A : Type} (f : World -> A) : Handler A :=
  fun _ w => (Returned (f w), w).

Definition ask {A : Type} (f : Env -> A) : Handler A :=
  fun c w => (Returned (f (environment c)), w).

Definition update (f : World -> World) : Handler unit :=
  fun _ w => (Returned tt, f w).

Definition emit (ev : Event) : Handler unit :=
  update (fun w =>
    mkWorld (store w) (session w) (conversation w) (clock w) (next_oid w) (next_ref w)
            (trace w ++ [ev])).

(** A call to the store: rejected calls throw before they change it. *)
Definition call (c : StoreCall) : Handler unit :=
  fun k w =>
    if rejects (environment k) c then (Threw "MongoError", w) else (Returned tt, w).

(** [new Date()]: later reads give later dates. *)
Definition new_Date : Handler Timestamp :=
  fun _ w =>
    (Returned (clock w),
     mkWorld (store w) (session w) (conversation w) (S (clock w)) (next_oid w) (next_ref w)
             (trace w)).

Definition new_ObjectId : Handler ObjectId :=
  fun _ w =>
    (Returned (next_oid w),
     mkWorld (store w) (session w) (conversation w) (clock w) (S (next_oid w)) (next_ref w)
             (trace w)).

(** [ctx.session.chatId = ...] and [ctx.session.imageQuality = ...]. *)
Definition set_session_chatId (c : ObjectId) : Handler unit :=
  update (fun w => set_session (mkSession (Some c) (imageQuality (session w))) w).

Definition set_session_imageQuality (q : ImageGenerationQuality) : Handler unit :=
  update (fun w => set_session (mkSession (session_chatId (session w)) q) w).

(** *** The platform *)

(** An awaited request to the platform: it goes through and is recorded, or
    it is refused and throws. *)
Definition request (ev : Event) : Handler unit :=
  fun c w =>
    match refuses c ev with
    | Some err => (Threw (error_name err), w)
    | None => emit ev c w
    end.

(** [ctx.reply(text)] sends a new message and resolves to it. *)
Definition reply (text : string) : Handler MessageRef :=
  fun c w =>
    match refuses c (Reply (next_ref w) text) with
    | Some err => (Threw (error_name err), w)
    | None =>
        (Returned (next_ref w),
         mkWorld (store w) (session w) (conversation w) (clock w) (next_oid w)
                 (S (next_ref w)) (trace w ++ [Reply (next_ref w) text]))
    end.

Definition reply_keyboard (text : string) (buttons : list (string * string)) : Handler MessageRef :=
  fun c w =>
    match refuses c (ReplyKeyboard (next_ref w) text buttons) with
    | Some err => (Threw (error_name err), w)
    | None =>
        (Returned (next_ref w),
         mkWorld (store w) (session w) (conversation w) (clock w) (next_oid w)
                 (S (next_ref w)) (trace w ++ [ReplyKeyboard (next_ref w) text buttons]))
    end.

(** [message.editText(text)]. *)
Definition editText (m : MessageRef) (text : string) : Handler unit :=
  request (EditText m text).

(** [ctx.callbackQuery.message?.editText(text)]: nothing is edited when the
    callback carries no message. *)
Definition callback_editText (m : option MessageRef) (text : string) : Handler unit :=
  match m with
  | Some m => editText m text
  | None => ret tt
  end.

Definition answerCallbackQuery (text : option string) : Handler unit :=
  request (AnswerCallbackQuery text).

Definition logError (context : string) : Handler unit :=
  emit (LogError context).

(** *** Texts sent by bot.ts *)

Definition LOADING := "Загрузка...".
Definition USER_NOT_FOUND :=
  "Пользователь не найден. Пожалуйста, начните новый чат с помощью команды /start.".
Definition START_NEW_CHAT :=
  "Пожалуйста, начните новый чат с помощью команды /start.".
Definition CHAT_NOT_FOUND :=
  "Чат не найден. Пожалуйста, начните новый чат с помощью команды /start.".
Definition GENERATION_FAILED :=
  "Произошла ошибка при генерации ответа. Пожалуйста, попробуйте позже или обратитесь в поддержку.".
Definition PROCESSING_FAILED :=
  "Произошла ошибка при обработке запроса. Пожалуйста, обратитесь к администратору.".
Definition CREATING_BOT := "Создаю Ваш персональный чат-бот, одну секунду...".
Definition BOT_CREATED := "Ваш персональный чат-бот создан. Пожалуйста, введите запрос".
Definition ENTER_REQUEST := "Пожалуйста, введите запрос".
Definition START_FAILED :=
  "Произошла ошибка при создании персонального чат-бота. Пожалуйста, попробуйте позже или обратитесь в поддержку.".
Definition BEGIN_WITH_START := "Пожалуйста, начните с команды /start.".
Definition NEW_CHAT_CREATED := "Новый чат создан. Пожалуйста, введите запрос.".
Definition NEWCHAT_FAILED :=
  "Произошла ошибка при создании нового чата. Пожалуйста, попробуйте позже или обратитесь в поддержку.".
Definition INVALID_MODEL := "Неверная модель. Пожалуйста, выберите правильную модель.".
Definition MODEL_SAVE_FAILED :=
  "Произошла ошибка при сохранении модели. Пожалуйста, попробуйте позже или обратитесь в поддержку.".
Definition CANCELLED_TOAST := "Отменено ✅".
Definition GENERATION_CANCELLED := "Генерация изображения отменена".
Definition SOMETHING_WRONG :=
  "Что-то пошло не так. Пожалуйста, попробуйте позже или обратитесь в поддержку.".
Definition CHOOSE_QUALITY := "Выберите качество изображения:
    standard — стандартное
    hd — повышенная детализация".
Definition TRY_LATER := "Произошла ошибка. Пожалуйста, попробуйте позже.".

Section Bot.

Variable cfg : Config.

(** *** The store API used by the handlers *)

Definition User_findOne (t : Z) : Handler (option UserDoc) :=
  call (UserFindOne t) ;;
  read (fun w => find_user (store w) t).

Definition User_create (from : TelegramUser) : Handler UserDoc :=
  call (UserCreate (id from)) ;;
  oid <- new_ObjectId ;;
  let u := mkUser oid (id from) (first_name from) (username from) (DEFAULT_MODEL cfg) in
  update (fun w =>
    set_store (mkStore (users (store w) ++ [u]) (chats (store w)) (messages (store w))) w) ;;
  ret u.

Definition User_save (u : UserDoc) : Handler unit :=
  call (UserSave (user_id u)) ;;
  update (fun w =>
    set_store (mkStore (save_user u (users (store w))) (chats (store w)) (messages (store w))) w).

Definition Chat_create (u : ObjectId) : Handler ChatDoc :=
  call (ChatCreate u) ;;
  oid <- new_ObjectId ;;
  now <- new_Date ;;
  let c := mkChat oid u now now in
  update (fun w =>
    set_store (mkStore (users (store w)) (chats (store w) ++ [c]) (messages (store w))) w) ;;
  ret c.

Definition Chat_findLatest (u : ObjectId) : Handler (option ChatDoc) :=
  call (ChatFindLatest u) ;;
  read (fun w => find_latest_chat (store w) u).

Definition Chat_findById (c : ObjectId) : Handler (option ChatDoc) :=
  call (ChatFindById c) ;;
  read (fun w => find_chat (store w) c).

Definition Chat_save (c : ChatDoc) : Handler unit :=
  call (ChatSave (chat_id c)) ;;
  update (fun w =>
    set_store (mkStore (users (store w)) (save_chat c (chats (store w))) (messages (store w))) w).

Definition Message_create (c u : ObjectId) (r : Role) (text : string) : Handler MessageDoc :=
  call (MessageCreate c r) ;;
  oid <- new_ObjectId ;;
  now <- new_Date ;;
  let m := mkMessage oid c u r text now in
  update (fun w =>
    set_store (mkStore (users (store w)) (chats (store w)) (messages (store w) ++ [m])) w) ;;
  ret m.

Definition Message_find (c : ObjectId) : Handler (list MessageDoc) :=
  call (MessageFind c) ;;
  read (fun w => find_messages (store w) c).

(** [messages.slice(-MAX_HISTORY_LENGTH)]: the history handed to the
    completion requester. *)
Definition history_window (fetched : list MessageDoc) : list MessageDoc :=
  slice (- MAX_HISTORY_LENGTH cfg) fetched.

(** The history of a chat as the message handler assembles it. *)
Definition assemble_history (st : Store) (c : ObjectId) : list MessageDoc :=
  history_window (find_messages st c).

(** The completion requester: the request is recorded, the answer is the
    environment's. *)
Definition requestCompletion (history : list MessageDoc) (t : Z) (model : string)
  : Handler (option string) :=
  emit (Completion history t model) ;;
  ask (fun e => answerWithChatGPT e history t model).

(** *** The type guards *)

(** Modelled from the spec: [isValidAiModel] of src/types/typeguards, the
    membership test of the model registry. *)
Definition isValidAiModel (s : string) : bool :=
  existsb (fun kv => String.eqb (fst kv) s) (AiModelsLabels cfg).

(** [AiModelsLabels[selectedModel]] inside a template string. *)
Definition model_label (s : string) : string :=
  match find (fun kv => String.eqb (fst kv) s) (AiModelsLabels cfg) with
  | Some kv => snd kv
  | None => "undefined"
  end.

(** Modelled from the spec: [isValidImageGenerationQuality] of
    src/types/typeguards, the membership test of the quality tiers. *)
Definition isValidImageGenerationQuality (s : string) : option ImageGenerationQuality :=
  if String.eqb s (quality_value STANDARD) then Some STANDARD
  else if String.eqb s (quality_value HD) then Some HD
  else None.

(** *** The image conversation *)

(** Modelled from the spec: [imageConversation] of
    src/conversations/imageConversation up to its first wait.  Entering the
    conversation asks for the description of the image and suspends. *)
Definition conversation_enter : Handler unit :=
  emit ConversationEnter ;;
  reply (IMAGE_PROMPT_MESSAGE cfg) ;;
  update (set_conversation (Some AwaitingPrompt)).

(** [ctx.conversation.exit('imageConversation')]. *)
Definition conversation_exit : Handler unit :=
  emit ConversationExit ;;
  update (set_conversation None).

(** Modelled from the spec: [imageConversation] resumed by the text it was
    waiting for.  The image API is called with the prompt and the quality
    stored in the session; the image is delivered, or a generic error text
    is sent; the conversation is over in both cases. *)
Definition imageConversation_resume (prompt : string) : Handler unit :=
  quality <- read (fun w => imageQuality (session w)) ;;
  emit (ImageRequest prompt quality) ;;
  image <- ask (fun e => generateImage e prompt quality) ;;
  update (set_conversation None) ;;
  match image with
  | Some url => request (SendImage url)
  | None => reply (IMAGE_ERROR_MESSAGE cfg) ;; ret tt
  end.

(** *** Callback queries *)

(** [bot.callbackQuery(Object.keys(AiModelsLabels), ...)]. *)
Definition callbackQuery_model (from : TelegramUser) (data : string) (message : option MessageRef)
  : Handler unit :=
  answerCallbackQuery None ;;
  if negb (isValidAiModel data) then
    callback_editText message INVALID_MODEL
  else
    try_catch
      (found <- User_findOne (id from) ;;
       match found with
       | None => reply BEGIN_WITH_START ;; ret tt
       | Some u =>
           User_save (mkUser (user_id u) (telegramId u) (firstName u) (userName u) data) ;;
           callback_editText message
             (String.append "Вы переключились на модель "
                (String.append (model_label data) "  ✅"))
       end)
      (fun _ =>
         reply MODEL_SAVE_FAILED ;;
         logError "Error in callbackQuery handler:").

(** [bot.callbackQuery('cancelImageGeneration', ...)]. *)
Definition callbackQuery_cancelImageGeneration (message : option MessageRef) : Handler unit :=
  answerCallbackQuery (Some CANCELLED_TOAST) ;;
  conversation_exit ;;
  callback_editText message GENERATION_CANCELLED.

(** [bot.callbackQuery(Object.values(ImageGenerationQuality), ...)]. *)
Definition callbackQuery_quality (data : string) (message : option MessageRef) : Handler unit :=
  answerCallbackQuery None ;;
  match isValidImageGenerationQuality data with
  | None => callback_editText message SOMETHING_WRONG
  | Some quality =>
      set_session_imageQuality quality ;;
      callback_editText message (String.append "Выбрано качество: " data) ;;
      conversation_enter
  end.

(** *** Commands *)

(** [bot.command('start', ...)]. *)
Definition command_start (from : TelegramUser) : Handler unit :=
  reply (START_MESSAGE cfg) ;;
  try_catch
    (found <- User_findOne (id from) ;;
     u <- match found with
          | None =>
              responseMsg <- reply CREATING_BOT ;;
              created <- User_create from ;;
              editText responseMsg BOT_CREATED ;;
              ret created
          | Some u =>
              reply ENTER_REQUEST ;;
              ret u
          end ;;
     chat <- Chat_create (user_id u) ;;
     set_session_chatId (chat_id chat))
    (fun _ =>
       reply START_FAILED ;;
       logError "Error in /start command:").

(** [bot.command('help', ...)]. *)
Definition command_help : Handler unit :=
  reply (HELP_MESSAGE cfg) ;; ret tt.

(** [bot.command('newchat', ...)]. *)
Definition command_newchat (from : TelegramUser) : Handler unit :=
  try_catch
    (found <- User_findOne (id from) ;;
     match found with
     | None => reply BEGIN_WITH_START ;; ret tt
     | Some u =>
         chat <- Chat_create (user_id u) ;;
         set_session_chatId (chat_id chat) ;;
         reply NEW_CHAT_CREATED ;;
         ret tt
     end)
    (fun _ =>
       reply NEWCHAT_FAILED ;;
       logError "Error in /newchat command:").

(** [bot.command('image', ...)]. *)
Definition command_image : Handler unit :=
  available <- ask IMAGE_QUALITY_CHANGE_AVAILABLE ;;
  if negb available then conversation_enter
  else
    reply_keyboard CHOOSE_QUALITY
      [("Standard", quality_value STANDARD); ("HD", quality_value HD);
       ("Отменить ❌", "cancelImageGeneration")] ;;
    ret tt.

(** *** The message handler *)

(** The part of [bot.on('message:text', ...)] that follows the resolution
    of the chat: store the user's message, assemble the history, request
    the completion, store and deliver the answer. *)
Definition exchange (responseMessage : MessageRef) (u : UserDoc) (chat : ChatDoc)
    (t : Z) (userMessageText : string) : Handler unit :=
  Message_create (chat_id chat) (user_id u) role_user userMessageText ;;
  fetched <- Message_find (chat_id chat) ;;
  let history := history_window fetched in
  answer <- requestCompletion history t (selectedModel u) ;;
  match answer with
  | Some text =>
      if truthy answer then
        Message_create (chat_id chat) (user_id u) role_assistant text ;;
        now <- new_Date ;;
        Chat_save (mkChat (chat_id chat) (chat_userId chat) (chat_createdAt chat) now) ;;
        editText responseMessage text
      else editText responseMessage GENERATION_FAILED
  | None => editText responseMessage GENERATION_FAILED
  end.

(** [bot.on('message:text', ...)]. *)
Definition on_message_text (from : TelegramUser) (userMessageText : string) : Handler unit :=
  sessionChatId <- read (fun w => session_chatId (session w)) ;;
  responseMessage <- reply LOADING ;;
  try_catch
    (found <- User_findOne (id from) ;;
     match found with
     | None => editText responseMessage USER_NOT_FOUND
     | Some u =>
         match sessionChatId with
         | None =>
             latestChat <- Chat_findLatest (user_id u) ;;
             match latestChat with
             | Some chatObj =>
                 set_session_chatId (chat_id chatObj) ;;
                 exchange responseMessage u chatObj (id from) userMessageText
             | None => editText responseMessage START_NEW_CHAT
             end
         | Some c =>
             chat <- Chat_findById c ;;
             match chat with
             | None => reply CHAT_NOT_FOUND ;; ret tt
             | Some chat => exchange responseMessage u chat (id from) userMessageText
             end
         end
     end)
    (fun _ =>
       editText responseMessage PROCESSING_FAILED ;;
       logError "Error in message handler:").

(** *** Routing *)

(** The updates whose handlers are written in bot.ts.  /models and /stats
    are delegated to [changeModel] and [getAnalytics] of src/commands and
    are not routed here. *)
Inductive Update :=
| CommandStart (from : TelegramUser)
| CommandHelp
| CommandNewchat (from : TelegramUser)
| CommandImage
| CallbackQuery (from : TelegramUser) (data : string) (message : option MessageRef)
| MessageText (from : TelegramUser) (text : string).

(** The handlers in the order bot.ts registers them. *)
Definition route (upd : Update) : Handler unit :=
  match upd with
  | CommandStart from => command_start from
  | CommandHelp => command_help
  | CommandNewchat from => command_newchat from
  | CommandImage => command_image
  | CallbackQuery from data message =>
      if isValidAiModel data then callbackQuery_model from data message
      else if String.eqb data "cancelImageGeneration" then
        callbackQuery_cancelImageGeneration message
      else if existsb (String.eqb data) (map quality_value [STANDARD; HD]) then
        callbackQuery_quality data message
      else ret tt
  | MessageText from text => on_message_text from text
  end.

(** [bot.catch(...)]: an error that escapes a handler is logged by its
    kind and the user is told to try later; when that reply is refused too,
    this is logged and nothing is thrown. *)
Definition bot_catch (err : string) : Handler unit :=
  logError "Error while handling update" ;;
  (if String.eqb err (error_name GrammyError) then logError "Error in request:"
   else if String.eqb err (error_name HttpError) then logError "Could not contact Telegram:"
   else logError "Unknown error:") ;;
  try_catch
    (reply TRY_LATER ;; ret tt)
    (fun _ => logError "Failed to send error message to user:").

(** One update through the middleware stack: a suspended image
    conversation takes the next text message, everything else reaches the
    handlers. *)
Definition handle_update (upd : Update) : Handler unit :=
  try_catch
    (suspended <- read conversation ;;
     match suspended, upd with
     | Some AwaitingPrompt, MessageText _ text => imageConversation_resume text
     | _, _ => route upd
     end)
    bot_catch.

(** The world after a handler has run. *)
Definition after {A : Type} (h : Handler A) (c : Conditions) (w : World) : World :=
  snd (h c w).

(** The requests a handler has added to the trace. *)
Definition requests {A : Type} (h : Handler A) (c : Conditions) (w : World) : list Event :=
  skipn (List.length (trace w)) (trace (after h c w)).

End Bot.

(** ** Start-up *)

(** [process.env] as bot.ts reads it at start-up. *)
Record ProcessEnv := mkProcessEnv {
  BOT_API_KEY : option string;
  MONGO_DB_URI : option string
}.

Inductive StartupEvent :=
| SetMyCommands
| MongooseConnect (uri : string)
| BotStart
| ConsoleLog (text : string)
| StartupError (context : string) (message : string).

(** The body of the [try] block of [startBot]: the events it produced and
    whether it completed or threw.  [connect uri] is the [readyState] of the
    connection, or [None] when [mongoose.connect] rejects. *)
Definition startBot_try (penv : ProcessEnv) (connect : string -> option nat)
  : list StartupEvent * Result unit :=
  match MONGO_DB_URI penv with
  | Some uri =>
      if truthy (MONGO_DB_URI penv) then
        match connect uri with
        | Some readyState =>
            if readyState =? 0 then ([MongooseConnect uri], Threw "Mongoose connection error")
            else
              ([MongooseConnect uri; BotStart; ConsoleLog "Mongoose connected & bot started"],
               Returned tt)
        | None => ([MongooseConnect uri], Threw "MongooseServerSelectionError")
        end
      else ([], Threw "MONGO_DB_URI is not defined")
  | None => ([], Threw "MONGO_DB_URI is not defined")
  end.

(** [startBot]: whatever the [try] block throws is caught and logged, so
    the function itself always returns. *)
Definition startBot (penv : ProcessEnv) (connect : string -> option nat) : list StartupEvent :=
  match startBot_try penv connect with
  | (events, Returned _) => events
  | (events, Threw message) => events ++ [StartupError "Error in startBot:" message]
  end.

(** Evaluation of the module bot.ts: it throws at the [BOT_API_KEY] guard,
    or it runs to the end (the bot is exported) having produced the listed
    events. *)
Inductive Startup :=
| Aborted (message : string)
| Loaded (events : list StartupEvent).

Definition bot_ts (penv : ProcessEnv) (connect : string -> option nat) : Startup :=
  if negb (truthy (BOT_API_KEY penv)) then Aborted "BOT_API_KEY is not defined"
  else Loaded (SetMyCommands :: startBot penv connect).

(** The bot polls for updates only once [bot.start()] has been called. *)
Definition started (s : Startup) : bool :=
  match s with
  | Aborted _ => false
  | Loaded events =>
      existsb (fun ev => match ev with BotStart => true | _ => false end) events
  end.

(** ** Properties used in the statements *)

(** Messages in chronological order: no message is created later than one
    that follows it. *)
Definition chronological (l : list MessageDoc) : Prop :=
  StronglySorted (fun a b => createdAt a <= createdAt b) l.

(** No store call of this update is rejected. *)
Definition store_available (e : Env) : Prop :=
  forall c, rejects e c = false.

(** The user owns no chat in the store. *)
Definition owns_no_chat (st : Store) (u : ObjectId) : Prop :=
  forall c, In c (chats st) -> chat_userId c <> u.

(** Requests to the image API. *)
Definition is_image_request (ev : Event) : bool :=
  match ev with ImageRequest _ _ => true | _ => false end.

(** The requests of one update deliver the reply by editing a single
    placeholder: the first request sends the placeholder, and after it no
    other message is sent and only the placeholder is edited. *)
Definition edits_placeholder (p : MessageRef) (text : string) (l : list Event) : Prop :=
  exists rest,
    l = Reply p text :: rest /\
    Forall (fun ev =>
              match ev with
              | Reply _ _ | ReplyKeyboard _ _ _ | SendImage _ => False
              | EditText m _ => m = p
              | _ => True
              end) rest.

(** The requests edit no message. *)
Definition edits_nothing (l : list Event) : Prop :=
  Forall (fun ev => match ev with EditText _ _ => False | _ => True end) l.

(** What [bot.catch] logs for a refused request. *)
Definition refusal_log (err : PlatformError) : string :=
  match err with
  | GrammyError => "Error in request:"
  | HttpError => "Could not contact Telegram:"
  end.

(** ** Consistency of the world *)

(** What a store filled by the handlers looks like: identifiers are below
    the next one to be issued and are not shared inside a collection, no two
    Users have the same telegram identifier, every Chat belongs to a stored
    User, every Message to a stored Chat and a stored User, every date is in
    the past, and the chat the session names is stored. *)
Record consistent (w : World) : Prop := mkConsistent {
  users_issued : Forall (fun u => user_id u < next_oid w) (users (store w));
  chats_issued : Forall (fun c => chat_id c < next_oid w) (chats (store w));
  messages_issued : Forall (fun m => message_id m < next_oid w) (messages (store w));
  users_distinct : NoDup (map user_id (users (store w)));
  chats_distinct : NoDup (map chat_id (chats (store w)));
  messages_distinct : NoDup (map message_id (messages (store w)));
  one_user_per_telegramId : NoDup (map telegramId (users (store w)));
  chats_owned :
    Forall (fun c => In (chat_userId c) (map user_id (users (store w)))) (chats (store w));
  messages_owned :
    Forall (fun m => In (chatId m) (map chat_id (chats (store w))) /\
                     In (userId m) (map user_id (users (store w))))
           (messages (store w));
  chats_dated :
    Forall (fun c => chat_createdAt c < clock w /\ updatedAt c < clock w) (chats (store w));
  messages_dated : Forall (fun m => createdAt m < clock w) (messages (store w));
  session_chat_stored :
    forall c, session_chatId (session w) = Some c -> In c (map chat_id (chats (store w)))
}.

(** The updates of one chat handled one after the other, each under the
    conditions of its moment. *)
Fixpoint run (cfg : Config) (script : list (Conditions * Update)) (w : World) : World :=
  match script with
  | [] => w
  | (k, upd) :: rest => run cfg rest (after (handle_update cfg upd) k w)
  end.

(** The user's document with another model selected. *)
Definition with_model (u : UserDoc) (model : string) : UserDoc :=
  mkUser (user_id u) (telegramId u) (firstName u) (userName u) model.

(** The events of one kind in a start-up. *)
Definition count_events (p : StartupEvent -> bool) (s : Startup) : nat :=
  match s with
  | Aborted _ => 0
  | Loaded events => List.length (filter p events)
  end.

(** ** Sample data *)

Definition sample_config : Config :=
  {| MAX_HISTORY_LENGTH := 2;
     START_MESSAGE := "Welcome";
     HELP_MESSAGE := "Help";
     AiModelsLabels := [("gpt-4o", "GPT-4o"); ("gpt-4o-mini", "GPT-4o mini")];
     DEFAULT_MODEL := "gpt-4o-mini";
     IMAGE_PROMPT_MESSAGE := "Describe the image";
     IMAGE_ERROR_MESSAGE := "Image generation failed" |}.

Definition alice : TelegramUser :=
  {| id := 42%Z; first_name := "Alice"; username := Some "alice" |}.

Definition alice_doc : UserDoc := mkUser 0 42%Z "Alice" (Some "alice") "gpt-4o-mini".

Definition alice_chat : ChatDoc := mkChat 1 0 0 0.

Definition empty_world : World :=
  mkWorld (mkStore [] [] []) initial None 0 0 0 [].

(** Alice has used /start: her User and one Chat are stored and the chat is
    active in her session. *)
Definition started_world : World :=
  mkWorld (mkStore [alice_doc] [alice_chat] []) (mkSession (Some 1) STANDARD) None 1 2 2 [].

(** The same store seen from a fresh session. *)
Definition fresh_session_world : World :=
  mkWorld (mkStore [alice_doc] [alice_chat] []) initial None 1 2 2 [].

(** Alice's chat with three stored messages, not in order of creation. *)
Definition busy_store : Store :=
  mkStore [alice_doc] [alice_chat]
    [mkMessage 2 1 0 role_user "first" 5;
     mkMessage 3 1 0 role_assistant "second" 7;
     mkMessage 4 1 0 role_user "third" 6].

(** Every store call succeeds and the completion requester answers. *)
Definition healthy : Env :=
  {| rejects := fun _ => false;
     answerWithChatGPT := fun _ _ _ => Some "Hello, Alice";
     generateImage := fun _ _ => Some "https://img/1";
     IMAGE_QUALITY_CHANGE_AVAILABLE := true |}.

(** The database rejects every call. *)
Definition database_down : Env :=
  {| rejects := fun _ => true;
     answerWithChatGPT := fun _ _ _ => Some "Hello, Alice";
     generateImage := fun _ _ => Some "https://img/1";
     IMAGE_QUALITY_CHANGE_AVAILABLE := true |}.



(** Alice's busy chat, active in her session. *)
Definition busy_world : World :=
  mkWorld busy_store (mkSession (Some 1) STANDARD) None 8 5 0 [].

(** No request to the platform is refused. *)
Definition platform_available (c : Conditions) : Prop :=
  forall ev, refuses c ev = None.


(** The platform refuses to send the given text as a new message. *)
Definition refusing_reply (text : string) (e : Env) : Conditions :=
  {| environment := e;
     refuses := fun ev =>
       match ev with
       | Reply _ sent => if String.eqb sent text then Some HttpError else None
       | _ => None
       end |}.


(** A first contact: /start, then a greeting. *)
Definition first_contact : list (Conditions * Update) :=
  [(accepting healthy, CommandStart alice);
   (accepting healthy, MessageText alice "hello")].

(** ** History window *)

Lemma insert_createdAt_perm m l : Permutation (insert_createdAt m l) (m :: l).
Proof.
  induction l as [|x r IH]; simpl.
  - apply Permutation_refl.
  - destruct (createdAt m <=? createdAt x).
    + apply Permutation_refl.
    + eapply perm_trans; [apply perm_skip, IH | apply perm_swap].
Qed.

Lemma sort_createdAt_perm l : Permutation (sort_createdAt l) l.
Proof.
  induction l as [|x r IH]; simpl.
  - constructor.
  - eapply perm_trans; [apply insert_createdAt_perm | now apply perm_skip].
Qed.

Lemma insert_createdAt_chronological m l :
  chronological l -> chronological (insert_createdAt m l).
Proof.
  unfold chronological.
  induction l as [|x r IH]; simpl; intros Hs.
  - repeat constructor.
  - inversion Hs as [|? ? Hr Hx]; subst.
    destruct (createdAt m <=? createdAt x) eqn:Hle.
    + apply Nat.leb_le in Hle.
      constructor; [assumption|].
      constructor; [assumption|].
      eapply Forall_impl; [|exact Hx]. cbn. intros; lia.
    + apply Nat.leb_gt in Hle.
      constructor; [now apply IH|].
      eapply Permutation_Forall.
      * apply Permutation_sym, insert_createdAt_perm.
      * constructor; [lia | assumption].
Qed.

Lemma sort_createdAt_chronological l : chronological (sort_createdAt l).
Proof.
  induction l as [|x r IH]; simpl.
  - constructor.
  - now apply insert_createdAt_chronological.
Qed.

Lemma chronological_skipn n l : chronological l -> chronological (skipn n l).
Proof.
  unfold chronological. revert l.
  induction n as [|n IH]; intros l Hs; simpl; [assumption|].
  destruct l as [|x r]; [constructor|].
  inversion Hs; subst. now apply IH.
Qed.

(** With a positive count [n], [slice(-n)] drops all but the last [n]
    elements. *)
Lemma slice_last {A : Type} (n : Z) (l : list A) :
  (0 < n)%Z -> slice (- n) l = skipn (List.length l - Z.to_nat n) l.
Proof.
  intros Hn. unfold slice.
  destruct (Z.ltb_spec (- n) 0) as [_|H]; [|lia].
  f_equal. lia.
Qed.

Lemma slice_short {A : Type} (n : Z) (l : list A) :
  (0 < n)%Z -> (Z.of_nat (List.length l) <= n)%Z -> slice (- n) l = l.
Proof.
  intros Hn Hlen. rewrite slice_last by assumption.
  replace (List.length l - Z.to_nat n) with 0 by lia. reflexivity.
Qed.

Lemma slice_long {A : Type} (n : Z) (l : list A) :
  (0 < n)%Z -> (n < Z.of_nat (List.length l))%Z ->
  Z.of_nat (List.length (slice (- n) l)) = n /\
  l = firstn (List.length l - Z.to_nat n) l ++ slice (- n) l.
Proof.
  intros Hn Hlen. rewrite slice_last by assumption. split.
  - rewrite length_skipn. lia.
  - symmetry. apply firstn_skipn.
Qed.

(** ** Running handlers *)

Lemma skipn_length_app {A : Type} (l d : list A) : skipn (List.length l) (l ++ d) = d.
Proof.
  induction l as [|x l IH]; simpl; [reflexivity | assumption].
Qed.

Lemma skipn_length_self {A : Type} (l : list A) : skipn (List.length l) l = [].
Proof.
  induction l as [|x l IH]; simpl; [reflexivity | assumption].
Qed.

Lemma skipn_length_plus {A : Type} (l d : list A) (n : nat) :
  skipn (List.length l + n) (l ++ d) = skipn n d.
Proof.
  induction l as [|x l IH]; simpl; [reflexivity | assumption].
Qed.

#[local] Arguments find_user : simpl never.
#[local] Arguments find_latest_chat : simpl never.
#[local] Arguments find_chat : simpl never.
#[local] Arguments find_messages : simpl never.
#[local] Arguments history_window : simpl never.
#[local] Arguments truthy : simpl never.
#[local] Arguments isValidAiModel : simpl never.
#[local] Arguments isValidImageGenerationQuality : simpl never.

(** Unfold a handler down to the tests that decide its path. *)
Ltac unfold_handler :=
  unfold requests, after, handle_update, route, bot_catch,
    on_message_text, exchange, command_start, command_help, command_newchat,
    command_image, callbackQuery_model, callbackQuery_quality,
    callbackQuery_cancelImageGeneration, imageConversation_resume,
    conversation_enter, conversation_exit, requestCompletion,
    User_findOne, User_create, User_save, Chat_create, Chat_findLatest,
    Chat_findById, Chat_save, Message_create, Message_find,
    set_session_chatId, set_session_imageQuality, callback_editText,
    answerCallbackQuery, logError, editText, reply, reply_keyboard, request,
    new_Date, new_ObjectId, emit, update, call, read, ask, try_catch, bind, ret,
    accepting in *;
  cbn in *.

(** Bring the requests of a run into the form of a list. *)
Ltac list_requests :=
  cbn in *;
  repeat rewrite <- app_assoc in *;
  cbn in *;
  repeat first
    [ rewrite skipn_length_app in *
    | rewrite skipn_length_self in *
    | rewrite length_app, skipn_length_plus in * ];
  cbn in *.

(** Decide one test on the path of a handler. *)
Ltac decide_test :=
  match goal with
  | |- context [if rejects ?e ?c then _ else _] => destruct (rejects e c) eqn:?
  | |- context [match session_chatId ?s with _ => _ end] => destruct (session_chatId s) eqn:?
  | |- context [match find_user ?st ?t with _ => _ end] => destruct (find_user st t) eqn:?
  | |- context [match find_latest_chat ?st ?u with _ => _ end] =>
      destruct (find_latest_chat st u) eqn:?
  | |- context [match find_chat ?st ?c with _ => _ end] => destruct (find_chat st c) eqn:?
  | |- context [match answerWithChatGPT ?e ?h ?t ?m with _ => _ end] =>
      destruct (answerWithChatGPT e h t m) eqn:?
  | |- context [if truthy ?a then _ else _] => destruct (truthy a) eqn:?
  | |- context [match generateImage ?e ?p ?q with _ => _ end] =>
      destruct (generateImage e p q) eqn:?
  | |- context [match refuses ?c ?ev with _ => _ end] => destruct (refuses c ev) eqn:?
  end; cbn in *.

(** Decide one test of the routing of an update. *)
Ltac decide_route :=
  match goal with
  | |- context [match conversation ?w with _ => _ end] =>
      destruct (conversation w) as [[]|] eqn:?
  | |- context [if isValidAiModel ?c ?d then _ else _] => destruct (isValidAiModel c d) eqn:?
  | |- context [if negb (isValidAiModel ?c ?d) then _ else _] =>
      destruct (isValidAiModel c d) eqn:?
  | |- context [match isValidImageGenerationQuality ?d with _ => _ end] =>
      destruct (isValidImageGenerationQuality d) eqn:?
  | |- context [if String.eqb ?a ?b then _ else _] => destruct (String.eqb a b) eqn:?
  | |- context [if (?a || ?b)%bool then _ else _] => destruct (a || b)%bool eqn:?
  | |- context [if negb (IMAGE_QUALITY_CHANGE_AVAILABLE ?e) then _ else _] =>
      destruct (IMAGE_QUALITY_CHANGE_AVAILABLE e) eqn:?
  end; cbn in *.

(** ** The history handed to the completion requester *)

(** C1. With a positive window constant N = MAX_HISTORY_LENGTH, the
    history of a chat is computed from all of the chat's messages sorted
    ascending by creation time: the fetched list holds exactly the chat's
    messages, in chronological order; when it holds at most N messages the
    history is the whole list; when it holds more, the history has exactly
    N messages and is the contiguous tail of the fetched list; it is
    chronological in both cases.  This history, taken from the store as it
    is once the user's message has been created, is what the message
    handler supplies to the completion requester: the exchange requests a
    completion as soon as the user's message is stored and the messages are
    fetched, and every completion it requests is for this history, the
    sender and the sender's model; so does the whole handler once the
    placeholder is sent, the sender is found and the session's chat is
    found. *)
Theorem history_is_final_window (cfg : Config) (st : Store) (c : ObjectId) :
  (0 < MAX_HISTORY_LENGTH cfg)%Z ->
  let fetched := find_messages st c in
  let history := assemble_history cfg st c in
  Permutation fetched (filter (fun m => chatId m =? c) (messages st)) /\
  chronological fetched /\
  ((Z.of_nat (List.length fetched) <= MAX_HISTORY_LENGTH cfg)%Z -> history = fetched) /\
  ((MAX_HISTORY_LENGTH cfg < Z.of_nat (List.length fetched))%Z ->
     Z.of_nat (List.length history) = MAX_HISTORY_LENGTH cfg /\
     exists older, fetched = older ++ history) /\
  chronological history /\
  (forall (k : Conditions) w responseMessage u chat t text,
     let stored :=
       store (after (Message_create (chat_id chat) (user_id u) role_user text) k w) in
     (forall h t' model,
        In (Completion h t' model)
           (requests (exchange cfg responseMessage u chat t text) k w) ->
        h = assemble_history cfg stored (chat_id chat) /\
        t' = t /\ model = selectedModel u) /\
     (rejects (environment k) (MessageCreate (chat_id chat) role_user) = false ->
      rejects (environment k) (MessageFind (chat_id chat)) = false ->
      In (Completion (assemble_history cfg stored (chat_id chat)) t (selectedModel u))
         (requests (exchange cfg responseMessage u chat t text) k w))) /\
  (forall (k : Conditions) w from text u chat_ref chat,
     refuses k (Reply (next_ref w) LOADING) = None ->
     session_chatId (session w) = Some chat_ref ->
     find_user (store w) (id from) = Some u ->
     find_chat (store w) chat_ref = Some chat ->
     rejects (environment k) (UserFindOne (id from)) = false ->
     rejects (environment k) (ChatFindById chat_ref) = false ->
     rejects (environment k) (MessageCreate (chat_id chat) role_user) = false ->
     rejects (environment k) (MessageFind (chat_id chat)) = false ->
     In (Completion
           (assemble_history cfg
              (mkStore (users (store w)) (chats (store w))
                 (messages (store w) ++
                  [mkMessage (next_oid w) (chat_id chat) (user_id u) role_user text
                     (clock w)]))
              (chat_id chat))
           (id from) (selectedModel u))
        (requests (on_message_text cfg from text) k w)).
Proof.
  intros Hpos fetched history.
  split; [apply sort_createdAt_perm|].
  split; [apply sort_createdAt_chronological|].
  split; [intros Hlen; now apply slice_short|].
  split.
  { intros Hlen. destruct (slice_long _ fetched Hpos Hlen) as [Hn Happ].
    split; [exact Hn|]. eexists. exact Happ. }
  split.
  { unfold history, assemble_history, history_window.
    rewrite slice_last by assumption.
    apply chronological_skipn, sort_createdAt_chronological. }
  split.
  - intros k w rm u chat t text. cbv zeta. unfold assemble_history. split.
    + intros h t' model. unfold_handler.
      repeat (decide_test; list_requests); cbn; intros Hin;
        try contradiction;
        repeat (destruct Hin as [Hin|Hin]; try discriminate Hin; try contradiction);
        injection Hin as <- <- <-; repeat split.
    + intros Hcreate Hfind. unfold_handler. rewrite Hcreate. cbn. rewrite Hfind. cbn.
      repeat (decide_test; list_requests); cbn; now left.
  - intros k w from text u chat_ref chat Hsent Hsession Huser Hchat H1 H2 H3 H4.
    unfold assemble_history. unfold_handler.
    rewrite Hsession, Hsent. cbn. rewrite H1. cbn. rewrite Huser. cbn.
    rewrite H2. cbn. rewrite Hchat. cbn. rewrite H3. cbn. rewrite H4. cbn.
    repeat (decide_test; list_requests); cbn; tauto.
Qed.

(** [slice(-0)] is [slice(0)]: a window constant of zero would keep the
    whole list, which is why the window is taken to be positive. *)
Lemma slice_zero_keeps_all {A : Type} (l : list A) : slice (- 0) l = l.
Proof.
  unfold slice. cbn.
  replace (Z.min 0 (Z.of_nat (List.length l))) with 0%Z by lia. reflexivity.
Qed.

(** ** Commands *)

Lemma owns_no_chat_latest st u : owns_no_chat st u -> find_latest_chat st u = None.
Proof.
  unfold owns_no_chat, find_latest_chat. intros Hnone.
  induction (chats st) as [|c r IH]; cbn; [reflexivity|].
  destruct (Nat.eqb_spec (chat_userId c) u) as [Heq|Hne].
  - exfalso. apply (Hnone c); [now left | exact Heq].
  - apply IH. intros d Hd. apply Hnone. now right.
Qed.

Lemma find_user_telegramId st t u : find_user st t = Some u -> telegramId u = t.
Proof.
  unfold find_user. intros H. apply find_some in H. now apply Z.eqb_eq.
Qed.

Lemma snoc_neq {A : Type} (l : list A) (x : A) : l ++ [x] <> l.
Proof.
  intros Heq. apply (f_equal (@List.length A)) in Heq.
  rewrite length_app in Heq. cbn in Heq. lia.
Qed.

(** A path on which an accepting platform or an available store would have
    refused.  *)
Ltac impossible_refusal Hplatform :=
  match goal with
  | H : refuses _ _ = Some _ |- _ => rewrite Hplatform in H; discriminate H
  end.

Ltac impossible_rejection Hstore :=
  match goal with
  | H : rejects _ _ = true |- _ => rewrite Hstore in H; discriminate H
  end.

(** C2 (amended).  When no store call is rejected and no request to the
    platform is refused, /start creates exactly one Chat, owned by the
    sender's User, creates that User exactly when none with the sender's
    telegram identifier was stored, and makes the new Chat the active chat
    of the session.  Whatever the store and the platform do, /start creates
    at most one Chat and at most one User, a User only when none was found,
    and it changes the session only to activate a Chat it has just created.
    When the platform accepts every request and no Chat has been created,
    the catch block has replied with the creation-error text and logged the
    error; this is what happens when the lookup, the creation of the User
    or the creation of the Chat is rejected. *)
Theorem start_creates_chat_and_missing_user (cfg : Config) (k : Conditions) (w : World)
    (from : TelegramUser) :
  let w' := after (command_start cfg from) k w in
  let reqs := requests (command_start cfg from) k w in
  (store_available (environment k) -> platform_available k ->
     exists u chat,
       chats (store w') = chats (store w) ++ [chat] /\
       chat_userId chat = user_id u /\
       telegramId u = id from /\
       session_chatId (session w') = Some (chat_id chat) /\
       match find_user (store w) (id from) with
       | Some found => u = found /\ users (store w') = users (store w)
       | None => users (store w') = users (store w) ++ [u]
       end) /\
  (chats (store w') = chats (store w) /\ session w' = session w \/
   exists chat,
     chats (store w') = chats (store w) ++ [chat] /\
     session w' = mkSession (Some (chat_id chat)) (imageQuality (session w))) /\
  (users (store w') = users (store w) \/
   find_user (store w) (id from) = None /\
   exists u, users (store w') = users (store w) ++ [u]) /\
  messages (store w') = messages (store w) /\
  (platform_available k ->
   chats (store w') = chats (store w) ->
   exists before r,
     reqs = before ++ [Reply r START_FAILED; LogError "Error in /start command:"]) /\
  (platform_available k ->
   rejects (environment k) (UserFindOne (id from)) = true \/
   (find_user (store w) (id from) = None /\
    rejects (environment k) (UserCreate (id from)) = true) \/
   (forall u, rejects (environment k) (ChatCreate u) = true) ->
   chats (store w') = chats (store w)).
Proof.
  cbv zeta. split; [|split; [|split; [|split; [|split]]]].
  - intros Hup Hplatform. unfold_handler.
    repeat decide_test;
      try impossible_refusal Hplatform; try impossible_rejection Hup;
      try congruence;
      repeat match goal with
             | H : find_user _ _ = Some _ |- _ => apply find_user_telegramId in H
             | H : Some _ = Some _ |- _ => injection H as <-
             end;
      eexists; eexists; repeat split; try eassumption; reflexivity.
  - unfold_handler. repeat decide_test;
      first [left; split; reflexivity | right; eexists; split; reflexivity].
  - unfold_handler. repeat decide_test;
      first [left; reflexivity | right; split; [reflexivity | eexists; reflexivity]].
  - unfold_handler. repeat decide_test; reflexivity.
  - intros Hplatform. unfold_handler.
    repeat (decide_test; list_requests); try impossible_refusal Hplatform;
      intros Hsame; try (exfalso; exact (snoc_neq _ _ Hsame));
      first
        [ exists []; eexists; reflexivity
        | eexists [_]; eexists; reflexivity
        | eexists [_; _]; eexists; reflexivity
        | eexists [_; _; _]; eexists; reflexivity ].
  - intros Hplatform Hrejected. unfold_handler.
    repeat decide_test; try impossible_refusal Hplatform; try reflexivity;
      exfalso; destruct Hrejected as [Hr|[[Hnone Hr]|Hr]];
      try congruence;
      match goal with
      | H : rejects _ (ChatCreate _) = false |- _ => rewrite Hr in H; discriminate H
      end.
Qed.

(** C5 (amended).  /newchat from a sender without a User creates no Chat,
    whatever the store and the platform do: the store and the session are
    left as they were.  With a platform that accepts the requests: when the
    lookup of the User is answered, the only reply is the correction asking
    to begin with /start; when the lookup is rejected, the catch block
    replies with the new-chat error text and logs the error. *)
Theorem newchat_without_user_creates_nothing (k : Conditions) (w : World)
    (from : TelegramUser) :
  find_user (store w) (id from) = None ->
  let w' := after (command_newchat from) k w in
  store w' = store w /\
  session w' = session w /\
  (platform_available k ->
   rejects (environment k) (UserFindOne (id from)) = false ->
   requests (command_newchat from) k w = [Reply (next_ref w) BEGIN_WITH_START]) /\
  (platform_available k ->
   rejects (environment k) (UserFindOne (id from)) = true ->
   requests (command_newchat from) k w =
     [Reply (next_ref w) NEWCHAT_FAILED; LogError "Error in /newchat command:"]).
Proof.
  intros Hnone. cbv zeta. unfold_handler.
  destruct (rejects (environment k) (UserFindOne (id from))); cbn; rewrite ?Hnone; cbn;
    repeat (decide_test; list_requests);
    repeat split; intros Hplatform; try discriminate;
    try impossible_refusal Hplatform.
Qed.

(** C4 (amended).  A text message that arrives when the session has no
    active chat and the sender has no User, or has a User who owns no Chat,
    creates no Message, whatever the store and the platform do: the store
    and the session are left as they were.  With a platform that accepts
    the requests: when the lookups are answered, the placeholder is edited
    to the text asking to use /start, and nothing else is sent; when a
    lookup is rejected, the catch block edits the placeholder to the
    processing-error text and logs the error. *)
Theorem text_without_chat_asks_for_start (cfg : Config) (k : Conditions) (w : World)
    (from : TelegramUser) (text : string) :
  session_chatId (session w) = None ->
  (find_user (store w) (id from) = None \/
   exists u, find_user (store w) (id from) = Some u /\ owns_no_chat (store w) (user_id u)) ->
  let w' := after (on_message_text cfg from text) k w in
  let failure :=
    [Reply (next_ref w) LOADING; EditText (next_ref w) PROCESSING_FAILED;
     LogError "Error in message handler:"] in
  store w' = store w /\
  session w' = session w /\
  (platform_available k ->
   rejects (environment k) (UserFindOne (id from)) = false ->
   (forall u, rejects (environment k) (ChatFindLatest u) = false) ->
   requests (on_message_text cfg from text) k w =
     [Reply (next_ref w) LOADING;
      EditText (next_ref w)
        (match find_user (store w) (id from) with
         | None => USER_NOT_FOUND
         | Some _ => START_NEW_CHAT
         end)]) /\
  (platform_available k ->
   rejects (environment k) (UserFindOne (id from)) = true ->
   requests (on_message_text cfg from text) k w = failure) /\
  (platform_available k ->
   rejects (environment k) (UserFindOne (id from)) = false ->
   (forall u, find_user (store w) (id from) = Some u ->
              rejects (environment k) (ChatFindLatest (user_id u)) = true) ->
   find_user (store w) (id from) <> None ->
   requests (on_message_text cfg from text) k w = failure).
Proof.
  intros Hsession Hcase. cbv zeta. unfold_handler. rewrite Hsession.
  destruct Hcase as [Hnone | (u & Hsome & Howns)].
  - destruct (refuses k (Reply (next_ref w) LOADING)) eqn:Hsent; cbn;
      [repeat split; intros Hplatform; impossible_refusal Hplatform|].
    destruct (rejects (environment k) (UserFindOne (id from))); cbn; rewrite ?Hnone; cbn;
      repeat (decide_test; list_requests);
      repeat split; intros Hplatform; try discriminate; try congruence;
      try impossible_refusal Hplatform.
  - apply owns_no_chat_latest in Howns.
    destruct (refuses k (Reply (next_ref w) LOADING)) eqn:Hsent; cbn;
      [repeat split; intros Hplatform; impossible_refusal Hplatform|].
    destruct (rejects (environment k) (UserFindOne (id from))); cbn; rewrite ?Hsome; cbn.
    + repeat (decide_test; list_requests);
        repeat split; intros Hplatform; try discriminate;
        try impossible_refusal Hplatform.
    + destruct (rejects (environment k) (ChatFindLatest (user_id u))) eqn:Hrej; cbn;
        rewrite ?Howns; cbn;
        repeat (decide_test; list_requests);
        repeat split; intros Hplatform; try discriminate;
        try impossible_refusal Hplatform.
      * intros _ Hall. rewrite Hall in Hrej. discriminate.
      * intros _ Hall _. rewrite (Hall u eq_refl) in Hrej. discriminate.
Qed.

(** ** The message handler *)

(** Peel the alternatives of a membership in an explicit list. *)
Ltac in_cases H :=
  cbn in H;
  repeat (destruct H as [H|H]; try discriminate H);
  try contradiction.



(** C6 (amended).  With a platform that accepts the requests: in the
    message handler, whenever the chat named by the session (if any) is
    stored, the reply is delivered by editing a single placeholder: the
    first request sends the "loading" placeholder, the placeholder is
    edited, and no other message is sent or edited.  The command handlers
    do not follow this pattern.  /help sends the help text as a new message
    and nothing else; /newchat replies by sending a new message and edits
    nothing.  /start sends its greeting as a new message that it never
    edits; for a stored sender it edits nothing; for a new sender, when the
    store accepts its calls, it sends a "creating" message after the
    greeting and edits that one to the confirmation. *)
Theorem text_reply_edits_placeholder (cfg : Config) (e : Env) (w : World)
    (from : TelegramUser) (text : string) :
  let reqs := requests (on_message_text cfg from text) e w in
  ((forall c, session_chatId (session w) = Some c -> find_chat (store w) c <> None) ->
   edits_placeholder (next_ref w) LOADING reqs /\
   exists shown, In (EditText (next_ref w) shown) reqs) /\
  requests (command_help cfg) e w = [Reply (next_ref w) (HELP_MESSAGE cfg)] /\
  (exists m shown rest, requests (command_newchat from) e w = Reply m shown :: rest) /\
  edits_nothing (requests (command_newchat from) e w) /\
  (exists rest,
     requests (command_start cfg from) e w =
       Reply (next_ref w) (START_MESSAGE cfg) :: rest /\
     Forall (fun ev => match ev with EditText m _ => m <> next_ref w | _ => True end) rest) /\
  (find_user (store w) (id from) <> None ->
   edits_nothing (requests (command_start cfg from) e w)) /\
  (find_user (store w) (id from) = None ->
   store_available e ->
   requests (command_start cfg from) e w =
     [Reply (next_ref w) (START_MESSAGE cfg); Reply (S (next_ref w)) CREATING_BOT;
      EditText (S (next_ref w)) BOT_CREATED]).
Proof.
  cbv zeta. unfold edits_placeholder, edits_nothing.
  split; [|split; [|split; [|split; [|split; [|split]]]]].
  - intros Hstored. unfold_handler.
    repeat (decide_test; list_requests);
      try (exfalso; eapply Hstored; [reflexivity | eassumption]);
      (split;
       [ eexists; split; [reflexivity | repeat constructor]
       | eexists; cbn; right; tauto ]).
  - unfold_handler. list_requests. reflexivity.
  - unfold_handler. repeat (decide_test; list_requests);
      do 3 eexists; reflexivity.
  - unfold_handler. repeat (decide_test; list_requests); repeat constructor.
  - unfold_handler. repeat (decide_test; list_requests);
      eexists; (split; [reflexivity|]); repeat constructor; cbn; lia.
  - intros Hknown. unfold_handler. repeat (decide_test; list_requests);
      try congruence; repeat constructor.
  - intros Hnone Hup. unfold_handler. rewrite !Hup. cbn. rewrite Hnone. cbn.
    rewrite !Hup. cbn. list_requests. reflexivity.
Qed.

(** ** Start-up *)

(** C7 (amended).  Without the platform API key the evaluation of bot.ts
    aborts with an error.  With the key but without the database connection
    string, [startBot] logs the error and returns: no connection is
    attempted and the bot is not started, but the evaluation completes.
    The bot is started only when both credentials are present. *)
Theorem missing_credentials_at_startup (penv : ProcessEnv) (connect : string -> option nat) :
  (truthy (BOT_API_KEY penv) = false ->
   bot_ts penv connect = Aborted "BOT_API_KEY is not defined") /\
  (truthy (BOT_API_KEY penv) = true ->
   truthy (MONGO_DB_URI penv) = false ->
   bot_ts penv connect =
     Loaded [SetMyCommands; StartupError "Error in startBot:" "MONGO_DB_URI is not defined"]) /\
  (started (bot_ts penv connect) = true ->
   truthy (BOT_API_KEY penv) = true /\ truthy (MONGO_DB_URI penv) = true).
Proof.
  unfold bot_ts, startBot, startBot_try, started.
  split; [|split].
  - intros Hkey. rewrite Hkey. reflexivity.
  - intros Hkey Huri. rewrite Hkey. cbn.
    destruct (MONGO_DB_URI penv) as [uri|]; [|reflexivity].
    rewrite Huri. reflexivity.
  - destruct (truthy (BOT_API_KEY penv)); cbn; [|discriminate].
    destruct (MONGO_DB_URI penv) as [uri|] eqn:Huri; cbn; [|discriminate].
    destruct (truthy (Some uri)); cbn; [now split | discriminate].
Qed.

(** ** The image conversation *)

Lemma isValidImageGenerationQuality_value s q :
  isValidImageGenerationQuality s = Some q -> s = quality_value q.
Proof.
  unfold isValidImageGenerationQuality. intros H.
  destruct (String.eqb_spec s (quality_value STANDARD)) as [->|_];
    [injection H as <-; reflexivity|].
  destruct (String.eqb_spec s (quality_value HD)) as [->|_];
    [injection H as <-; reflexivity | discriminate].
Qed.

Lemma isValidImageGenerationQuality_accepts q :
  isValidImageGenerationQuality (quality_value q) = Some q.
Proof.
  destruct q; reflexivity.
Qed.


(** C10.  The session starts with the standard quality.  The cancel
    callback leaves the session as it was.  Whatever the update, the
    handlers of bot.ts leave the stored quality as it was unless the update
    is a quality callback, which stores the quality it carries.  A quality
    selected earlier therefore survives a cancellation: when /image then
    enters the conversation directly, the prompt is sent to the image API
    with the quality selected before the cancellation. *)
Theorem cancel_keeps_image_quality (cfg : Config) :
  imageQuality initial = STANDARD /\
  (forall (e : Env) w message,
     session (after (callbackQuery_cancelImageGeneration message) e w) = session w) /\
  (forall (e : Env) w upd,
     let w' := after (handle_update cfg upd) e w in
     imageQuality (session w') = imageQuality (session w) \/
     exists from q message,
       upd = CallbackQuery from (quality_value q) message /\
       imageQuality (session w') = q) /\
  (forall (e1 e2 e4 : Env) store_rejects answers images w m1 m2 q from prompt,
     let e3 := mkEnv store_rejects answers images false in
     let selected := after (callbackQuery_quality cfg (quality_value q) m1) e1 w in
     let cancelled := after (callbackQuery_cancelImageGeneration m2) e2 selected in
     let entered := after (command_image cfg) e3 cancelled in
     imageQuality (session cancelled) = q /\
     filter is_image_request
       (requests (handle_update cfg (MessageText from prompt)) e4 entered)
     = [ImageRequest prompt q]).
Proof.
  split; [reflexivity|]. split; [|split].
  - intros e w message. unfold_handler. destruct message; cbn; now destruct (session w).
  - intros e w upd. cbv zeta.
    destruct upd as [from| |from| |from data [m|]|from text]; unfold_handler;
      repeat first [decide_route | decide_test];
      try (left; reflexivity).
    all: right;
      match goal with
      | H : isValidImageGenerationQuality _ = Some _ |- _ =>
          apply isValidImageGenerationQuality_value in H; subst
      end;
      do 3 eexists; split; reflexivity.
  - intros e1 e2 e4 store_rejects answers images w m1 m2 q from prompt. cbv zeta.
    unfold callbackQuery_quality. rewrite isValidImageGenerationQuality_accepts.
    unfold_handler. destruct m1, m2; cbn; split; try reflexivity;
      repeat (decide_test; list_requests); reflexivity.
Qed.

(** ** Runs on the sample data *)

(** C1, on a chat of three messages with a window of two: the handler asks
    for a completion on the latest stored message and the new one. *)
Lemma history_is_final_window_witness :
  (0 < MAX_HISTORY_LENGTH sample_config)%Z /\
  (MAX_HISTORY_LENGTH sample_config < Z.of_nat (List.length (find_messages busy_store 1%nat)))%Z /\
  Z.of_nat (List.length (assemble_history sample_config busy_store 1)) =
    MAX_HISTORY_LENGTH sample_config /\
  chronological (assemble_history sample_config busy_store 1) /\
  In (Completion
        [mkMessage 3 1 0 role_assistant "second" 7; mkMessage 5 1 0 role_user "fourth" 8]
        42%Z "gpt-4o-mini")
     (requests (on_message_text sample_config alice "fourth") healthy busy_world).
Proof.
  assert (Hpos : (0 < MAX_HISTORY_LENGTH sample_config)%Z) by reflexivity.
  assert (Hlong : (MAX_HISTORY_LENGTH sample_config <
                   Z.of_nat (List.length (find_messages busy_store 1%nat)))%Z) by reflexivity.
  destruct (history_is_final_window sample_config busy_store 1 Hpos)
    as (_ & _ & _ & Hlast & Hchron & _ & Hhandler).
  split; [exact Hpos|]. split; [exact Hlong|].
  split; [exact (proj1 (Hlast Hlong))|]. split; [exact Hchron|].
  exact (Hhandler healthy busy_world alice "fourth" alice_doc 1 alice_chat
           eq_refl eq_refl eq_refl eq_refl eq_refl eq_refl eq_refl eq_refl).
Defined.

(** C2: a rejected store leaves /start without a Chat and without a User,
    although none was stored for the sender; and so does a platform that
    refuses the "creating" message while the store accepts every call. *)
Lemma start_with_database_down_creates_nothing :
  let w' := after (command_start sample_config alice) database_down empty_world in
  find_user (store empty_world) (id alice) = None /\
  users (store w') = users (store empty_world) /\
  ~ (exists chat, chats (store w') = chats (store empty_world) ++ [chat]) /\
  session_chatId (session w') = None /\
  requests (command_start sample_config alice) database_down empty_world =
    [Reply 0 "Welcome"; Reply 1 START_FAILED; LogError "Error in /start command:"] /\
  store_available healthy /\
  store (after (command_start sample_config alice) (refusing_reply CREATING_BOT healthy)
           empty_world) = store empty_world.
Proof.
  cbv zeta. repeat split.
  intros [chat Hchat]. vm_compute in Hchat. discriminate Hchat.
Qed.

(** C2 (amended), for a first /start and for a repeated one, and for a
    /start whose lookup is rejected. *)
Lemma start_creates_chat_and_missing_user_witness :
  store_available (environment healthy) /\
  platform_available healthy /\
  (exists u chat,
     users (store (after (command_start sample_config alice) healthy empty_world)) = [u] /\
     chats (store (after (command_start sample_config alice) healthy empty_world)) = [chat] /\
     chat_userId chat = user_id u) /\
  (exists chat,
     users (store (after (command_start sample_config alice) healthy started_world)) =
       [alice_doc] /\
     chats (store (after (command_start sample_config alice) healthy started_world)) =
       [alice_chat; chat]) /\
  platform_available database_down /\
  rejects (environment database_down) (UserFindOne (id alice)) = true /\
  chats (store (after (command_start sample_config alice) database_down empty_world)) =
    chats (store empty_world) /\
  exists before r,
    requests (command_start sample_config alice) database_down empty_world =
      before ++ [Reply r START_FAILED; LogError "Error in /start command:"].
Proof.
  assert (Hup : store_available (environment healthy)) by (intros c; reflexivity).
  assert (Hplatform : platform_available healthy) by (intros ev; reflexivity).
  assert (Hdown : platform_available database_down) by (intros ev; reflexivity).
  split; [exact Hup|]. split; [exact Hplatform|]. split; [|split].
  - destruct (start_creates_chat_and_missing_user sample_config healthy empty_world alice)
      as [Hok _].
    destruct (Hok Hup Hplatform) as (u & chat & Hchats & Howner & _ & _ & Husers).
    exists u, chat. split; [exact Husers|]. split; [exact Hchats | exact Howner].
  - destruct (start_creates_chat_and_missing_user sample_config healthy started_world alice)
      as [Hok _].
    destruct (Hok Hup Hplatform) as (u & chat & Hchats & _ & _ & _ & Husers).
    exists chat. split; [exact (proj2 Husers) | exact Hchats].
  - destruct (start_creates_chat_and_missing_user sample_config database_down empty_world
                alice) as (_ & _ & _ & _ & Hreported & Hrejected).
    split; [exact Hdown|]. split; [reflexivity|].
    assert (Hsame : chats (store (after (command_start sample_config alice) database_down
                                    empty_world)) = chats (store empty_world))
      by (apply (Hrejected Hdown); left; reflexivity).
    split; [exact Hsame | exact (Hreported Hdown Hsame)].
Defined.

(** C4: with the database down the placeholder is edited to the generic
    processing error, not to a text asking for /start. *)
Lemma text_with_rejected_lookup_reports_error :
  let reqs := requests (on_message_text sample_config alice "hi") database_down empty_world in
  session_chatId (session empty_world) = None /\
  find_user (store empty_world) (id alice) = None /\
  reqs = [Reply 0 LOADING; EditText 0 PROCESSING_FAILED;
          LogError "Error in message handler:"] /\
  ~ In (EditText 0 USER_NOT_FOUND) reqs /\
  ~ In (EditText 0 START_NEW_CHAT) reqs.
Proof.
  cbv zeta. repeat split; intros Hin; vm_compute in Hin;
    repeat (destruct Hin as [Hin|Hin]; try discriminate Hin); contradiction.
Qed.

(** C4 (amended), without a User: with the lookup answered and with the
    lookup rejected. *)
Lemma text_without_chat_asks_for_start_witness :
  session_chatId (session empty_world) = None /\
  find_user (store empty_world) (id alice) = None /\
  platform_available healthy /\
  store (after (on_message_text sample_config alice "hi") healthy empty_world) =
    store empty_world /\
  requests (on_message_text sample_config alice "hi") healthy empty_world =
    [Reply 0 LOADING; EditText 0 USER_NOT_FOUND] /\
  rejects (environment database_down) (UserFindOne (id alice)) = true /\
  requests (on_message_text sample_config alice "hi") database_down empty_world =
    [Reply 0 LOADING; EditText 0 PROCESSING_FAILED; LogError "Error in message handler:"].
Proof.
  assert (Hsession : session_chatId (session empty_world) = None) by reflexivity.
  assert (Hnone : find_user (store empty_world) (id alice) = None) by reflexivity.
  assert (Hplatform : platform_available healthy) by (intros ev; reflexivity).
  assert (Hdown : platform_available database_down) by (intros ev; reflexivity).
  destruct (text_without_chat_asks_for_start sample_config healthy empty_world alice "hi"
              Hsession (or_introl Hnone)) as (Hstore & _ & Hreqs & _).
  destruct (text_without_chat_asks_for_start sample_config database_down empty_world alice
              "hi" Hsession (or_introl Hnone)) as (_ & _ & _ & Hfailed & _).
  split; [exact Hsession|]. split; [exact Hnone|]. split; [exact Hplatform|].
  split; [exact Hstore|]. split.
  - apply (Hreqs Hplatform); [reflexivity | intros u; reflexivity].
  - split; [reflexivity|]. apply (Hfailed Hdown). reflexivity.
Defined.

(** C5: with the database down /newchat replies with the generic error
    instead of the correction. *)
Lemma newchat_with_rejected_lookup_reports_error :
  let reqs := requests (command_newchat alice) database_down empty_world in
  find_user (store empty_world) (id alice) = None /\
  reqs = [Reply 0 NEWCHAT_FAILED; LogError "Error in /newchat command:"] /\
  ~ In (Reply 0 BEGIN_WITH_START) reqs.
Proof.
  cbv zeta. repeat split. intros Hin. vm_compute in Hin.
  repeat (destruct Hin as [Hin|Hin]; try discriminate Hin); contradiction.
Qed.

(** C5 (amended), on the empty store: with the lookup answered and with
    the lookup rejected. *)
Lemma newchat_without_user_creates_nothing_witness :
  find_user (store empty_world) (id alice) = None /\
  platform_available healthy /\
  rejects (environment healthy) (UserFindOne (id alice)) = false /\
  store (after (command_newchat alice) healthy empty_world) = store empty_world /\
  requests (command_newchat alice) healthy empty_world = [Reply 0 BEGIN_WITH_START] /\
  rejects (environment database_down) (UserFindOne (id alice)) = true /\
  requests (command_newchat alice) database_down empty_world =
    [Reply 0 NEWCHAT_FAILED; LogError "Error in /newchat command:"].
Proof.
  assert (Hnone : find_user (store empty_world) (id alice) = None) by reflexivity.
  assert (Hplatform : platform_available healthy) by (intros ev; reflexivity).
  assert (Hdown : platform_available database_down) by (intros ev; reflexivity).
  destruct (newchat_without_user_creates_nothing healthy empty_world alice Hnone)
    as (Hstore & _ & Hreqs & _).
  destruct (newchat_without_user_creates_nothing database_down empty_world alice Hnone)
    as (_ & _ & _ & Hfailed).
  split; [exact Hnone|]. split; [exact Hplatform|]. split; [reflexivity|].
  split; [exact Hstore|]. split; [exact (Hreqs Hplatform eq_refl)|].
  split; [reflexivity | exact (Hfailed Hdown eq_refl)].
Defined.


(** C6: /start for a known user sends two new messages and edits none. *)
Lemma start_replies_with_new_messages :
  let reqs := requests (command_start sample_config alice) healthy fresh_session_world in
  reqs = [Reply 2 "Welcome"; Reply 3 ENTER_REQUEST] /\
  forall p text, ~ edits_placeholder p text reqs.
Proof.
  cbv zeta. split; [reflexivity|].
  intros p text (rest & Heq & Hrest).
  vm_compute in Heq. injection Heq as _ _ <-.
  inversion Hrest as [|ev l Hev _]; subst. exact Hev.
Qed.

(** C6 (amended), for a text message in the active chat and for the /start
    of a new sender. *)
Lemma text_reply_edits_placeholder_witness :
  (forall c, session_chatId (session started_world) = Some c ->
             find_chat (store started_world) c <> None) /\
  edits_placeholder 2 LOADING
    (requests (on_message_text sample_config alice "hi") healthy started_world) /\
  find_user (store empty_world) (id alice) = None /\
  store_available healthy /\
  requests (command_start sample_config alice) healthy empty_world =
    [Reply 0 "Welcome"; Reply 1 CREATING_BOT; EditText 1 BOT_CREATED].
Proof.
  assert (Hstored : forall c, session_chatId (session started_world) = Some c ->
                              find_chat (store started_world) c <> None).
  { intros c Hc. injection Hc as <-. discriminate. }
  assert (Hup : store_available healthy) by (intros c; reflexivity).
  split; [exact Hstored|]. split.
  - exact (proj1 (proj1 (text_reply_edits_placeholder sample_config healthy started_world
                           alice "hi") Hstored)).
  - split; [reflexivity|]. split; [exact Hup|].
    destruct (text_reply_edits_placeholder sample_config healthy empty_world alice "hi")
      as (_ & _ & _ & _ & _ & _ & Hnew).
    exact (Hnew eq_refl Hup).
Defined.

(** C7: without the database connection string the evaluation of bot.ts
    completes; the error is only logged. *)
Lemma missing_database_uri_is_logged :
  let penv := mkProcessEnv (Some "123456:token") None in
  truthy (MONGO_DB_URI penv) = false /\
  bot_ts penv (fun _ => Some 1) =
    Loaded [SetMyCommands; StartupError "Error in startBot:" "MONGO_DB_URI is not defined"] /\
  ~ (exists message, bot_ts penv (fun _ => Some 1) = Aborted message).
Proof.
  cbv zeta. split; [reflexivity|]. split; [reflexivity|].
  intros [message H]. discriminate H.
Qed.

(** C7 (amended), for each missing credential. *)
Lemma missing_credentials_at_startup_witness :
  truthy (BOT_API_KEY (mkProcessEnv None (Some "mongodb://db"))) = false /\
  bot_ts (mkProcessEnv None (Some "mongodb://db")) (fun _ => Some 1) =
    Aborted "BOT_API_KEY is not defined" /\
  truthy (MONGO_DB_URI (mkProcessEnv (Some "123456:token") (Some ""))) = false /\
  started (bot_ts (mkProcessEnv (Some "123456:token") (Some "")) (fun _ => Some 1)) = false.
Proof.
  split; [reflexivity|]. split.
  - apply (missing_credentials_at_startup (mkProcessEnv None (Some "mongodb://db"))).
    reflexivity.
  - split; [reflexivity|].
    destruct (missing_credentials_at_startup (mkProcessEnv (Some "123456:token") (Some ""))
                (fun _ => Some 1)) as (_ & Hlogged & _).
    rewrite Hlogged by reflexivity. reflexivity.
Defined.



(** ** Consistency is kept *)

Lemma issued_not_in {A : Type} (f : A -> nat) (n : nat) (l : list A) :
  Forall (fun x => f x < n) l -> ~ In n (map f l).
Proof.
  intros Hall Hin. apply in_map_iff in Hin. destruct Hin as (x & Hx & Hin).
  rewrite Forall_forall in Hall. specialize (Hall x Hin). lia.
Qed.

Lemma NoDup_snoc {A : Type} (l : list A) (x : A) :
  NoDup l -> ~ In x l -> NoDup (l ++ [x]).
Proof.
  intros Hl Hx. apply NoDup_app; [assumption | repeat constructor; intros [] |].
  intros y Hy [<-|[]]. now apply Hx.
Qed.

Lemma map_save_chat_id d l : map chat_id (save_chat d l) = map chat_id l.
Proof.
  unfold save_chat. rewrite map_map. apply map_ext.
  intros x. destruct (Nat.eqb_spec (chat_id x) (chat_id d)); congruence.
Qed.

Lemma map_save_user_id d l : map user_id (save_user d l) = map user_id l.
Proof.
  unfold save_user. rewrite map_map. apply map_ext.
  intros x. destruct (Nat.eqb_spec (user_id x) (user_id d)); congruence.
Qed.

Lemma find_user_In st t u : find_user st t = Some u -> In u (users st).
Proof.
  unfold find_user. intros H. now apply find_some in H.
Qed.

Lemma find_chat_In st c d : find_chat st c = Some d -> In d (chats st) /\ chat_id d = c.
Proof.
  unfold find_chat. intros H. apply find_some in H.
  destruct H as [Hin Heq]. split; [assumption | now apply Nat.eqb_eq].
Qed.

Lemma latest_In l d : latest l = Some d -> In d l.
Proof.
  revert d. induction l as [|c r IH]; cbn; intros d H; [discriminate|].
  destruct (latest r) as [d'|].
  - destruct (chat_createdAt d' <=? chat_createdAt c); injection H as <-;
      [now left | right; now apply IH].
  - injection H as <-. now left.
Qed.

Lemma find_latest_chat_In st u d :
  find_latest_chat st u = Some d -> In d (chats st) /\ chat_userId d = u.
Proof.
  unfold find_latest_chat. intros H. apply latest_In, filter_In in H.
  destruct H as [Hin Heq]. split; [assumption | now apply Nat.eqb_eq].
Qed.

Lemma Forall_snoc {A : Type} (P : A -> Prop) (l : list A) (x : A) :
  Forall P l -> P x -> Forall P (l ++ [x]).
Proof.
  intros Hl Hx. apply Forall_app. split; [assumption | now constructor].
Qed.

Lemma bound_not_in {A : Type} (f : A -> nat) (n k : nat) (l : list A) :
  Forall (fun x => f x < n) l -> n <= k -> ~ In k (map f l).
Proof.
  intros Hall Hle. apply issued_not_in.
  eapply Forall_impl; [|exact Hall]. cbn. intros; lia.
Qed.

Lemma find_user_None st t : find_user st t = None -> ~ In t (map telegramId (users st)).
Proof.
  unfold find_user. intros Hnone Hin.
  apply in_map_iff in Hin. destruct Hin as (u & Hu & Hin).
  apply (find_none _ _ Hnone) in Hin. apply Z.eqb_neq in Hin. congruence.
Qed.

Lemma Forall_save_chat (P : ChatDoc -> Prop) d l :
  Forall P l -> P d -> Forall P (save_chat d l).
Proof.
  intros Hl Hd. unfold save_chat. apply Forall_forall. intros x Hx.
  apply in_map_iff in Hx. destruct Hx as (y & <- & Hy).
  destruct (chat_id y =? chat_id d); [assumption|].
  rewrite Forall_forall in Hl. now apply Hl.
Qed.

Lemma Forall_save_user (P : UserDoc -> Prop) d l :
  Forall P l -> P d -> Forall P (save_user d l).
Proof.
  intros Hl Hd. unfold save_user. apply Forall_forall. intros x Hx.
  apply in_map_iff in Hx. destruct Hx as (y & <- & Hy).
  destruct (user_id y =? user_id d); [assumption|].
  rewrite Forall_forall in Hl. now apply Hl.
Qed.

(** In a collection without shared identifiers, a document is determined by
    its identifier. *)
Lemma NoDup_map_inj {A B : Type} (f : A -> B) (l : list A) (x y : A) :
  NoDup (map f l) -> In x l -> In y l -> f x = f y -> x = y.
Proof.
  induction l as [|a l IH]; cbn; intros Hnd Hx Hy Heq; [contradiction|].
  inversion Hnd as [|? ? Ha Hl]; subst.
  destruct Hx as [->|Hx], Hy as [->|Hy].
  - reflexivity.
  - exfalso. apply Ha. rewrite Heq. now apply in_map.
  - exfalso. apply Ha. rewrite <- Heq. now apply in_map.
  - now apply IH.
Qed.

Lemma map_telegramId_save_user u model l :
  NoDup (map user_id l) -> In u l ->
  map telegramId (save_user (with_model u model) l) = map telegramId l.
Proof.
  intros Hnd Hu. unfold save_user. rewrite map_map.
  apply map_ext_in. intros x Hx. cbn.
  destruct (Nat.eqb_spec (user_id x) (user_id u)) as [Heq|]; [|reflexivity].
  cbn. now rewrite (NoDup_map_inj user_id l x u Hnd Hx Hu Heq).
Qed.

#[local] Arguments save_chat : simpl never.
#[local] Arguments save_user : simpl never.

(** Facts about the documents a lookup has returned. *)
Ltac lookup_facts :=
  repeat match goal with
  | H : find_user _ _ = Some _ |- _ =>
      pose proof (in_map user_id _ _ (find_user_In _ _ _ H));
      pose proof (find_user_In _ _ _ H);
      apply find_user_telegramId in H
  | H : find_user _ _ = None |- _ => apply find_user_None in H
  | H : find_chat _ _ = Some _ |- _ =>
      pose proof (in_map chat_id _ _ (proj1 (find_chat_In _ _ _ H)));
      apply find_chat_In in H; destruct H
  | H : find_latest_chat _ _ = Some _ |- _ =>
      pose proof (in_map chat_id _ _ (proj1 (find_latest_chat_In _ _ _ H)));
      apply find_latest_chat_In in H; destruct H
  end.

(** A document of a list has what all documents of the list have. *)
Ltac member_facts :=
  repeat match goal with
  | Hall : Forall ?P ?l, Hin : In ?x ?l |- _ =>
      lazymatch goal with
      | _ : P x |- _ => fail
      | _ => pose proof (proj1 (Forall_forall P l) Hall x Hin : P x)
      end
  end; cbn beta in *.

Ltac membership :=
  repeat rewrite map_app; repeat rewrite map_save_chat_id;
  repeat rewrite map_save_user_id; cbn [map];
  repeat rewrite in_app_iff; cbn [In chat_id user_id];
  intuition (subst; auto).

Ltac leaf := cbn in *; intros; repeat split; first [lia | membership].

Ltac keep :=
  match goal with
  | |- Forall _ (_ ++ [_]) => apply Forall_snoc; [keep | leaf]
  | |- Forall _ (save_chat _ _) => apply Forall_save_chat; [keep | leaf]
  | |- Forall _ (save_user _ _) => apply Forall_save_user; [keep | leaf]
  | H : Forall _ ?l |- Forall _ ?l =>
      solve [exact H | eapply Forall_impl; [|exact H]; leaf]
  | |- NoDup (map _ (_ ++ [_])) =>
      rewrite map_app; cbn [map]; apply NoDup_snoc; [keep | cbn; not_issued]
  | |- NoDup (map chat_id (save_chat _ _)) => rewrite map_save_chat_id; keep
  | |- NoDup (map user_id (save_user _ _)) => rewrite map_save_user_id; keep
  | |- NoDup (map telegramId (save_user (mkUser (user_id ?u) _ _ _ ?model) _)) =>
      change (mkUser (user_id u) (telegramId u) (firstName u) (userName u) model)
        with (with_model u model);
      rewrite map_telegramId_save_user by assumption; keep
  | H : NoDup ?l |- NoDup ?l => exact H
  end
with not_issued :=
  repeat rewrite map_app; cbn [map];
  match goal with
  | |- ~ In _ (_ ++ [_]) =>
      let Hin := fresh in
      intros Hin; apply in_app_or in Hin; destruct Hin as [Hin|[Hin|[]]];
      [ revert Hin; match goal with |- ?P -> False => change (~ P) end; not_issued
      | cbn in Hin; lia ]
  | H : ~ In ?t ?l |- ~ In ?t ?l => exact H
  | H : Forall (fun x => _ < ?n) ?l |- ~ In _ (map _ ?l) =>
      solve [eapply bound_not_in; [exact H | cbn; lia]]
  end.

(** The chat named by the session stays stored. *)
Ltac keep_session H12 :=
  let c := fresh "c" in
  let Hc := fresh "Hc" in
  intros c Hc;
  try (assert (In c (map chat_id (chats (store _)))) by (apply H12; congruence));
  try injection Hc as <-;
  membership.

(** One update keeps the world consistent, whatever the store, the platform
    and the remote APIs do. *)
Lemma handle_update_consistent cfg upd e w :
  consistent w -> consistent (after (handle_update cfg upd) e w).
Proof.
  intros [H1 H2 H3 H4 H5 H6 H7 H8 H9 H10 H11 H12].
  destruct upd as [from| |from| |from data [m|]|from text];
    unfold with_model in *; unfold_handler;
    repeat first [decide_route | decide_test];
    lookup_facts; member_facts; constructor; cbn;
    try assumption; try keep; try keep_session H12.
Qed.

Lemma run_consistent cfg script w : consistent w -> consistent (run cfg script w).
Proof.
  revert w. induction script as [|[e upd] rest IH]; intros w Hw; cbn; [assumption|].
  apply IH. now apply handle_update_consistent.
Qed.

Lemma empty_world_consistent : consistent empty_world.
Proof.
  constructor; cbn; try constructor. discriminate.
Qed.

(** X1.  Along any sequence of updates from a consistent world, whatever
    the store, the platform and the remote APIs do, the store stays well
    formed: no two
    documents of a collection share an identifier, no two Users share a
    telegram identifier (find-before-create works when updates are handled
    one at a time), every Chat belongs to a stored User, and every Message
    to a stored Chat and a stored User. *)
Theorem run_keeps_store_well_formed (cfg : Config) (script : list (Conditions * Update)) (w : World) :
  consistent w ->
  let st := store (run cfg script w) in
  NoDup (map user_id (users st)) /\
  NoDup (map chat_id (chats st)) /\
  NoDup (map message_id (messages st)) /\
  NoDup (map telegramId (users st)) /\
  Forall (fun c => In (chat_userId c) (map user_id (users st))) (chats st) /\
  Forall (fun m => In (chatId m) (map chat_id (chats st)) /\
                   In (userId m) (map user_id (users st))) (messages st).
Proof.
  intros Hw. apply (run_consistent cfg script) in Hw.
  destruct Hw. cbv zeta. repeat split; assumption.
Qed.

Lemma find_chat_stored st c : In c (map chat_id (chats st)) -> find_chat st c <> None.
Proof.
  unfold find_chat. intros Hin Hnone.
  apply in_map_iff in Hin. destruct Hin as (d & Hd & Hin).
  apply (find_none _ _ Hnone) in Hin. apply Nat.eqb_neq in Hin. congruence.
Qed.

(** X2.  Along any sequence of updates from a consistent world, whatever
    the store, the platform and the remote APIs did, the chat named by the
    session is stored.  So when no image conversation is waiting for its
    prompt and the platform accepts the requests, the text message that
    follows is routed to the message handler and never gets the
    chat-not-found reply: its requests are the "loading" placeholder and
    edits of that placeholder only. *)
Theorem run_keeps_session_chat_stored (cfg : Config) (script : list (Conditions * Update))
    (w : World) (e : Env) (from : TelegramUser) (text : string) :
  consistent w ->
  let w' := run cfg script w in
  (forall c, session_chatId (session w') = Some c -> find_chat (store w') c <> None) /\
  (conversation w' = None ->
   edits_placeholder (next_ref w') LOADING
     (requests (handle_update cfg (MessageText from text)) e w')).
Proof.
  intros Hw. apply (run_consistent cfg script) in Hw. cbv zeta.
  assert (Hstored : forall c, session_chatId (session (run cfg script w)) = Some c ->
                              find_chat (store (run cfg script w)) c <> None).
  { intros c Hc. apply find_chat_stored. now apply (session_chat_stored _ Hw). }
  split; [exact Hstored|].
  generalize dependent (run cfg script w). intros w' _ Hstored Hidle.
  unfold edits_placeholder. unfold_handler. rewrite Hidle. cbn.
  repeat (decide_test; list_requests);
    try (exfalso; eapply Hstored; [reflexivity | eassumption]);
    (eexists; split; [reflexivity | repeat constructor]).
Qed.

(** X3.  No update deletes or rewrites a Message: after any sequence of
    updates the stored Messages are the earlier ones followed by the new
    ones, and the identifiers of the stored Users and Chats are the earlier
    ones followed by new ones. *)
Theorem run_only_appends (cfg : Config) (script : list (Conditions * Update)) (w : World) :
  let st := store (run cfg script w) in
  (exists added, messages st = messages (store w) ++ added) /\
  (exists added, map user_id (users st) = map user_id (users (store w)) ++ added) /\
  (exists added, map chat_id (chats st) = map chat_id (chats (store w)) ++ added).
Proof.
  cbv zeta. revert w. induction script as [|[e upd] rest IH]; intros w; cbn.
  - repeat split; exists []; now rewrite app_nil_r.
  - destruct (IH (after (handle_update cfg upd) e w))
      as ((ms & Hms) & (us & Hus) & (cs & Hcs)).
    rewrite Hms, Hus, Hcs. clear IH Hms Hus Hcs.
    assert (Hstep :
      (exists added, messages (store (after (handle_update cfg upd) e w)) =
                     messages (store w) ++ added) /\
      (exists added, map user_id (users (store (after (handle_update cfg upd) e w))) =
                     map user_id (users (store w)) ++ added) /\
      (exists added, map chat_id (chats (store (after (handle_update cfg upd) e w))) =
                     map chat_id (chats (store w)) ++ added)).
    { destruct upd as [from| |from| |from data [m|]|from text]; unfold_handler;
        repeat first [decide_route | decide_test];
        rewrite ?map_save_chat_id, ?map_save_user_id, ?map_app;
        repeat rewrite <- app_assoc;
        repeat split; eexists;
        first [reflexivity | symmetry; apply app_nil_r]. }
    destruct Hstep as ((ms' & ->) & (us' & ->) & (cs' & ->)).
    repeat split; eexists; rewrite <- app_assoc; reflexivity.
Qed.

(** ** What the completion requester is given *)

Lemma insert_createdAt_last m x l :
  createdAt x <= createdAt m ->
  insert_createdAt x (l ++ [m]) = insert_createdAt x l ++ [m].
Proof.
  intros Hle. induction l as [|y r IH]; cbn.
  - apply Nat.leb_le in Hle. now rewrite Hle.
  - destruct (createdAt x <=? createdAt y); [reflexivity | now rewrite IH].
Qed.

Lemma sort_createdAt_last m l :
  Forall (fun x => createdAt x <= createdAt m) l ->
  sort_createdAt (l ++ [m]) = sort_createdAt l ++ [m].
Proof.
  induction l as [|x r IH]; cbn; intros Hall; [reflexivity|].
  inversion Hall; subst. rewrite IH by assumption. now apply insert_createdAt_last.
Qed.

(** A message created now in a chat is the last one fetched for it. *)
Lemma find_messages_last st m :
  Forall (fun x => createdAt x <= createdAt m) (messages st) ->
  find_messages (mkStore (users st) (chats st) (messages st ++ [m])) (chatId m) =
  find_messages st (chatId m) ++ [m].
Proof.
  intros Hall. unfold find_messages. cbn [messages].
  rewrite filter_app. cbn [filter]. rewrite Nat.eqb_refl.
  apply sort_createdAt_last.
  apply Forall_forall. intros x Hx. apply filter_In in Hx.
  rewrite Forall_forall in Hall. now apply Hall.
Qed.

Lemma slice_keeps_last {A : Type} (n : Z) (l : list A) (x : A) :
  (0 < n)%Z -> exists older, slice (- n) (l ++ [x]) = older ++ [x].
Proof.
  intros Hn. rewrite slice_last by assumption.
  rewrite length_app. cbn [List.length].
  exists (skipn (List.length l + 1 - Z.to_nat n) l).
  rewrite skipn_app.
  replace (List.length l + 1 - Z.to_nat n - List.length l) with 0 by lia.
  reflexivity.
Qed.

(** The completion request of a text message: for the sender, with the
    model stored for the sender, on the history of the chat of the session
    (or of the latest chat), fetched once the user's message has been
    stored. *)
Lemma completion_request_of_text cfg e w from text h t model :
  In (Completion h t model) (requests (on_message_text cfg from text) e w) ->
  t = id from /\
  exists u chat,
    find_user (store w) (id from) = Some u /\
    model = selectedModel u /\
    match session_chatId (session w) with
    | Some c => find_chat (store w) c = Some chat
    | None => find_latest_chat (store w) (user_id u) = Some chat
    end /\
    h = history_window cfg
          (find_messages
             (mkStore (users (store w)) (chats (store w))
                (messages (store w) ++
                 [mkMessage (next_oid w) (chat_id chat) (user_id u) role_user text
                    (clock w)]))
             (chat_id chat)).
Proof.
  unfold_handler.
  repeat (decide_test; list_requests);
    intros Hin; in_cases Hin; injection Hin as <- <- <-;
    (split; [reflexivity|]);
    eexists; eexists; (split; [reflexivity|]);
    (split; [reflexivity|]); (split; [|reflexivity]);
    cbn; first [reflexivity | assumption].
Qed.

Lemma history_window_last cfg (w : World) m :
  (0 < MAX_HISTORY_LENGTH cfg)%Z ->
  consistent w ->
  createdAt m = clock w ->
  exists older,
    history_window cfg
      (find_messages
         (mkStore (users (store w)) (chats (store w)) (messages (store w) ++ [m]))
         (chatId m)) = older ++ [m].
Proof.
  intros Hpos Hw Hnow.
  assert (Hdates : Forall (fun x => createdAt x <= createdAt m) (messages (store w))).
  { eapply Forall_impl; [|exact (messages_dated _ Hw)]. cbn. intros; lia. }
  unfold history_window. rewrite (find_messages_last (store w) m Hdates).
  now apply slice_keeps_last.
Qed.

(** X4.  With a positive window, the history given to the completion
    requester during a text message in a consistent world ends with the
    message the user has just sent, which is stored; the request is made
    for the sender and with the model stored for the sender. *)
Theorem completion_history_ends_with_request (cfg : Config) (e : Env) (w : World)
    (from : TelegramUser) (text : string) (h : list MessageDoc) (t : Z) (model : string) :
  (0 < MAX_HISTORY_LENGTH cfg)%Z ->
  consistent w ->
  In (Completion h t model) (requests (on_message_text cfg from text) e w) ->
  t = id from /\
  (exists u, find_user (store w) (id from) = Some u /\ model = selectedModel u) /\
  exists older m,
    h = older ++ [m] /\
    role m = role_user /\ content m = text /\
    In m (messages (store (after (on_message_text cfg from text) e w))).
Proof.
  intros Hpos Hw. unfold_handler.
  repeat (decide_test; list_requests);
    intros Hin; in_cases Hin; injection Hin as <- <- <-;
    (split; [reflexivity|]);
    (split; [eexists; split; reflexivity|]);
    match goal with
    | |- context [find_messages (mkStore _ _ (_ ++ [?m])) _] =>
        destruct (history_window_last cfg w m Hpos Hw eq_refl) as (older & Hlast);
        cbn in Hlast; exists older, m; rewrite Hlast
    end;
    repeat split; rewrite ?in_app_iff; cbn; tauto.
Qed.

(** ** Model selection *)

(** Saving a found user with another model: the lookup by telegram
    identifier now finds the saved document. *)
Lemma find_user_after_save st t u model :
  find_user st t = Some u ->
  find_user (mkStore (save_user (with_model u model) (users st)) (chats st) (messages st)) t
  = Some (with_model u model).
Proof.
  intros Hfind. pose proof (find_user_telegramId _ _ _ Hfind) as Ht.
  unfold find_user in *. cbn [users]. unfold save_user.
  induction (users st) as [|x r IH]; cbn in *; [discriminate|].
  destruct (Nat.eqb_spec (user_id x) (user_id u)) as [Hid|Hid]; cbn.
  - rewrite Ht, Z.eqb_refl. reflexivity.
  - destruct (telegramId x =? t)%Z.
    + injection Hfind as ->. contradiction.
    + now apply IH.
Qed.

(** X5.  When a model button is pressed by a stored user and the store
    accepts the lookup and the save, the user's lookup afterwards returns
    the same user with that model selected, and the completion request of
    the next text message names that model. *)
Theorem selected_model_is_requested (cfg : Config) (e1 e2 : Env) (w : World)
    (from : TelegramUser) (data : string) (message : option MessageRef) (text : string)
    (u : UserDoc) :
  isValidAiModel cfg data = true ->
  find_user (store w) (id from) = Some u ->
  rejects e1 (UserFindOne (id from)) = false ->
  rejects e1 (UserSave (user_id u)) = false ->
  let w1 := after (callbackQuery_model cfg from data message) e1 w in
  find_user (store w1) (id from) = Some (with_model u data) /\
  forall h t model,
    In (Completion h t model) (requests (on_message_text cfg from text) e2 w1) ->
    model = data.
Proof.
  intros Hvalid Hfind Hlookup Hsave. cbv zeta.
  assert (Hstore : store (after (callbackQuery_model cfg from data message) e1 w) =
                   mkStore (save_user (with_model u data) (users (store w)))
                           (chats (store w)) (messages (store w))).
  { unfold with_model. unfold_handler. rewrite Hvalid. cbn.
    rewrite Hlookup. cbn. rewrite Hfind. cbn. rewrite Hsave. cbn.
    destruct message; reflexivity. }
  assert (Hafter : find_user (store (after (callbackQuery_model cfg from data message) e1 w))
                     (id from) = Some (with_model u data)).
  { rewrite Hstore. now apply find_user_after_save. }
  split; [exact Hafter|].
  intros h t model Hin.
  apply completion_request_of_text in Hin.
  destruct Hin as (_ & u' & chat & Hu' & -> & _).
  rewrite Hafter in Hu'. injection Hu' as <-. reflexivity.
Qed.


(** ** The chat of a text message *)




(** X8.  A text message never replaces an active chat: when the session
    names a chat, the session is as it was afterwards.  In every case the
    message handler leaves the Users, the selected image quality and the
    state of the image conversation as they were. *)
Theorem text_keeps_active_chat (cfg : Config) (e : Env) (w : World)
    (from : TelegramUser) (text : string) :
  let w' := after (on_message_text cfg from text) e w in
  (session_chatId (session w) <> None -> session w' = session w) /\
  users (store w') = users (store w) /\
  imageQuality (session w') = imageQuality (session w) /\
  conversation w' = conversation w.
Proof.
  cbv zeta. unfold_handler.
  repeat (decide_test; list_requests); repeat split;
    try congruence; intros _; now destruct (session w).
Qed.


(** ** Errors never escape the handlers *)

(** X10.  No handler of bot.ts lets a rejected store call escape: for every
    update, every environment and every world the handler returns, so the
    error boundary [bot.catch] is not reached because of the store. *)
Theorem route_never_throws (cfg : Config) (upd : Update) (e : Env) (w : World) :
  fst (route cfg upd e w) = Returned tt.
Proof.
  destruct upd as [from| |from| |from data [m|]|from text]; unfold_handler;
    repeat first [decide_route | decide_test]; reflexivity.
Qed.

(** X11.  /help, /image and the callbacks that are not model buttons
    (cancel, quality, unknown data) never touch the store.  /help sends the
    help text and nothing else, leaving session and conversation as they
    were.  When quality selection is available, /image sends the quality
    keyboard, with the two quality buttons and the cancel button, and
    nothing else: the image conversation is not entered; it leaves the
    session as it was in every case. *)
Theorem store_untouched_by_help_image_and_dialog (cfg : Config) (e : Env) (w : World) :
  store (after (route cfg CommandHelp) e w) = store w /\
  session (after (route cfg CommandHelp) e w) = session w /\
  conversation (after (route cfg CommandHelp) e w) = conversation w /\
  requests (route cfg CommandHelp) e w = [Reply (next_ref w) (HELP_MESSAGE cfg)] /\
  store (after (route cfg CommandImage) e w) = store w /\
  session (after (route cfg CommandImage) e w) = session w /\
  (IMAGE_QUALITY_CHANGE_AVAILABLE e = true ->
   conversation (after (route cfg CommandImage) e w) = conversation w /\
   requests (route cfg CommandImage) e w =
     [ReplyKeyboard (next_ref w) CHOOSE_QUALITY
        [("Standard", quality_value STANDARD); ("HD", quality_value HD);
         ("Отменить ❌", "cancelImageGeneration")]]) /\
  (forall from data message,
     isValidAiModel cfg data = false ->
     store (after (route cfg (CallbackQuery from data message)) e w) = store w).
Proof.
  do 3 (split;
    [ unfold_handler; repeat first [decide_route | decide_test];
      first [reflexivity | now destruct (store w) | now destruct (session w)] |]).
  split; [unfold_handler; list_requests; reflexivity|].
  do 2 (split;
    [ unfold_handler; repeat first [decide_route | decide_test];
      first [reflexivity | now destruct (store w) | now destruct (session w)] |]).
  split.
  - intros Havailable. unfold_handler. rewrite Havailable. cbn. list_requests.
    split; reflexivity.
  - intros from data [m|] Hmodel; unfold_handler; rewrite Hmodel;
      repeat first [decide_route | decide_test];
      first [reflexivity | now destruct (store w)].
Qed.

(** ** A new chat *)

(** In a consistent world no Message belongs to a chat that is not issued
    yet. *)
Lemma unissued_chat_has_no_messages w c :
  consistent w -> next_oid w <= c -> find_messages (store w) c = [].
Proof.
  intros Hw Hc. unfold find_messages.
  pose proof (messages_owned _ Hw) as Howned.
  induction (messages (store w)) as [|m r IH]; cbn; [reflexivity|].
  inversion Howned as [|? ? [Hchat _] Hrest]; subst.
  destruct (Nat.eqb_spec (chatId m) c) as [<-|_]; [|now apply IH].
  exfalso. now apply (bound_not_in chat_id _ _ _ (chats_issued _ Hw) Hc).
Qed.

(** The first text message in a chat without Messages: the history given
    to the completion requester is that message alone. *)
Lemma first_message_is_the_history cfg e w from text c h t model :
  (0 < MAX_HISTORY_LENGTH cfg)%Z ->
  Forall (fun x => createdAt x < clock w) (messages (store w)) ->
  session_chatId (session w) = Some c ->
  find_messages (store w) c = [] ->
  In (Completion h t model) (requests (on_message_text cfg from text) e w) ->
  exists m, h = [m] /\ role m = role_user /\ content m = text /\ chatId m = c.
Proof.
  intros Hpos Hdated Hsession Hnone Hin.
  apply completion_request_of_text in Hin.
  destruct Hin as (_ & u & chat & _ & _ & Hchat & ->).
  rewrite Hsession in Hchat. apply find_chat_In in Hchat. destruct Hchat as [_ Hid].
  set (m := mkMessage (next_oid w) (chat_id chat) (user_id u) role_user text (clock w)).
  assert (Hdates : Forall (fun x => createdAt x <= createdAt m) (messages (store w))).
  { eapply Forall_impl; [|exact Hdated]. cbn. intros; lia. }
  pose proof (find_messages_last (store w) m Hdates) as Hlast.
  cbn [chatId m] in Hlast. rewrite Hid in *. rewrite Hnone in Hlast.
  exists m. unfold history_window. rewrite Hlast. cbn [app].
  split; [|repeat split; cbn; congruence].
  apply slice_short; [assumption | cbn; lia].
Qed.

Lemma command_newchat_consistent e w from :
  consistent w -> consistent (after (command_newchat from) e w).
Proof.
  intros [H1 H2 H3 H4 H5 H6 H7 H8 H9 H10 H11 H12]. unfold_handler.
  repeat decide_test; lookup_facts; member_facts; constructor; cbn;
    try assumption; try keep; try keep_session H12.
Qed.

Lemma command_start_consistent cfg e w from :
  consistent w -> consistent (after (command_start cfg from) e w).
Proof.
  intros [H1 H2 H3 H4 H5 H6 H7 H8 H9 H10 H11 H12]. unfold_handler.
  repeat decide_test; lookup_facts; member_facts; constructor; cbn;
    try assumption; try keep; try keep_session H12.
Qed.

(** A completion requested while a text message is routed without a
    suspended conversation is requested by the message handler. *)
Lemma completion_of_routed_text cfg k w from text h t model :
  conversation w = None ->
  In (Completion h t model) (requests (handle_update cfg (MessageText from text)) k w) ->
  In (Completion h t model) (requests (on_message_text cfg from text) k w).
Proof.
  intros Hidle. unfold_handler. rewrite Hidle. cbn.
  repeat (repeat first [decide_route | decide_test]; list_requests);
    intros Hin; in_cases Hin; cbn; tauto.
Qed.

(** X12.  A chat created by /newchat or by /start starts with an empty
    context.  In a consistent world, when the store accepts the calls of
    the command and the platform accepts its requests, exactly one Chat is
    added and becomes the active chat; and when no image conversation is
    waiting for its prompt, then whatever the store and the platform do
    during the text message that follows, every completion it requests is
    for a history made of that message alone, and the message belongs to
    the new chat. *)
Theorem new_chat_starts_with_empty_history (cfg : Config) (k1 k2 : Conditions) (w : World)
    (from : TelegramUser) (text : string) (command : Handler unit) :
  (0 < MAX_HISTORY_LENGTH cfg)%Z ->
  consistent w ->
  conversation w = None ->
  store_available (environment k1) ->
  platform_available k1 ->
  command = command_start cfg from \/
  (command = command_newchat from /\ find_user (store w) (id from) <> None) ->
  let w1 := after command k1 w in
  exists chat,
    chats (store w1) = chats (store w) ++ [chat] /\
    messages (store w1) = messages (store w) /\
    session_chatId (session w1) = Some (chat_id chat) /\
    forall h t model,
      In (Completion h t model)
         (requests (handle_update cfg (MessageText from text)) k2 w1) ->
      exists m,
        h = [m] /\ role m = role_user /\ content m = text /\ chatId m = chat_id chat.
Proof.
  intros Hpos Hw Hidle Hup Hplatform Hcommand. cbv zeta.
  assert (Hw1 : consistent (after command k1 w)).
  { destruct Hcommand as [->|[-> _]];
      [now apply command_start_consistent | now apply command_newchat_consistent]. }
  assert (Hshape : exists chat,
    chats (store (after command k1 w)) = chats (store w) ++ [chat] /\
    messages (store (after command k1 w)) = messages (store w) /\
    session_chatId (session (after command k1 w)) = Some (chat_id chat) /\
    chat_id chat = next_oid (after command k1 w) - 1 /\
    next_oid (after command k1 w) > next_oid w /\
    conversation (after command k1 w) = None).
  { destruct Hcommand as [->|[-> Hknown]]; unfold_handler;
      repeat decide_test;
      try impossible_refusal Hplatform; try impossible_rejection Hup;
      try contradiction;
      eexists; repeat split; cbn; first [lia | assumption]. }
  destruct Hshape as (chat & Hchats & Hmessages & Hsession & Hid & Hnext & Hidle1).
  exists chat. repeat split; try assumption.
  intros h t model Hin.
  apply completion_of_routed_text in Hin; [|assumption].
  eapply first_message_is_the_history; try eassumption.
  - exact (messages_dated _ Hw1).
  - unfold find_messages. rewrite Hmessages.
    apply (unissued_chat_has_no_messages w (chat_id chat) Hw). lia.
Qed.

Lemma find_user_snoc st u t :
  telegramId u = t ->
  find_user (mkStore (users st ++ [u]) (chats st) (messages st)) t <> None.
Proof.
  intros <-. unfold find_user. cbn [users].
  induction (users st) as [|x r IH]; cbn.
  - rewrite Z.eqb_refl. discriminate.
  - destruct (telegramId x =? telegramId u)%Z; [discriminate | assumption].
Qed.

(** X13.  User creation is idempotent across /start commands handled one
    after the other: once a /start has gone through with the store
    accepting its calls and the platform its requests, the sender's User is
    found, and a later /start of the same sender creates no further User,
    whatever the store and the platform do then; when they accept its calls
    and requests too, it adds one more Chat for that User and makes it the
    active chat. *)
Theorem repeated_start_keeps_one_user (cfg : Config) (k1 k2 : Conditions) (w : World)
    (from : TelegramUser) :
  store_available (environment k1) ->
  platform_available k1 ->
  let w1 := after (command_start cfg from) k1 w in
  let w2 := after (command_start cfg from) k2 w1 in
  exists u,
    find_user (store w1) (id from) = Some u /\
    users (store w2) = users (store w1) /\
    (store_available (environment k2) ->
     platform_available k2 ->
     exists chat,
       chats (store w2) = chats (store w1) ++ [chat] /\
       chat_userId chat = user_id u /\
       session_chatId (session w2) = Some (chat_id chat)).
Proof.
  intros Hup Hplatform. cbv zeta.
  assert (Hfound : find_user (store (after (command_start cfg from) k1 w)) (id from)
                   <> None).
  { unfold_handler.
    repeat decide_test;
      try impossible_refusal Hplatform; try impossible_rejection Hup.
    - change (find_user (store w) (id from) <> None). congruence.
    - apply (find_user_snoc (store w)). reflexivity. }
  generalize dependent (after (command_start cfg from) k1 w). intros w1 Hfound.
  destruct (find_user (store w1) (id from)) as [u|] eqn:Hfind; [|contradiction].
  exists u. split; [reflexivity|]. unfold_handler. split.
  - repeat decide_test; congruence.
  - intros Hup2 Hplatform2.
    repeat decide_test;
      try impossible_refusal Hplatform2; try impossible_rejection Hup2;
      try congruence.
    eexists. repeat split. simpl. congruence.
Qed.

(** ** The error boundary *)

(** X17.  No error escapes [bot.catch]: every update returns, whatever the
    store, the platform and the remote APIs do.  When the platform refuses
    the help text of /help, the boundary logs the update and the kind of
    the error and tells the user to try later; when that reply is refused
    as well, it logs this instead.  Store and session are as they were. *)
Theorem error_boundary_reports_refusal (cfg : Config) (k : Conditions) (w : World)
    (err : PlatformError) :
  (forall upd, fst (handle_update cfg upd k w) = Returned tt) /\
  (refuses k (Reply (next_ref w) (HELP_MESSAGE cfg)) = Some err ->
   requests (handle_update cfg CommandHelp) k w =
     LogError "Error while handling update" :: LogError (refusal_log err) ::
     match refuses k (Reply (next_ref w) TRY_LATER) with
     | None => [Reply (next_ref w) TRY_LATER]
     | Some _ => [LogError "Failed to send error message to user:"]
     end /\
   store (after (handle_update cfg CommandHelp) k w) = store w /\
   session (after (handle_update cfg CommandHelp) k w) = session w).
Proof.
  split.
  - intros upd.
    destruct upd as [from| |from| |from data [m|]|from text]; unfold_handler;
      repeat first [decide_route | decide_test]; reflexivity.
  - intros Hrefused. unfold_handler.
    destruct (conversation w) as [[]|]; cbn; rewrite Hrefused; cbn;
      destruct err; cbn;
      destruct (refuses k (Reply (next_ref w) TRY_LATER)); cbn;
      list_requests; repeat split; reflexivity.
Qed.

(** ** Start-up *)

(** X14.  The bot is started exactly when the API key and the connection
    string are both set to non-empty values and the connection is ready
    (a resolved connection with [readyState] zero does not count, and
    neither does a rejected one).  Empty strings count as missing. *)
Theorem bot_started_iff (penv : ProcessEnv) (connect : string -> option nat) :
  started (bot_ts penv connect) = true <->
  exists key uri readyState,
    BOT_API_KEY penv = Some key /\ key <> "" /\
    MONGO_DB_URI penv = Some uri /\ uri <> "" /\
    connect uri = Some readyState /\ readyState <> 0.
Proof.
  unfold bot_ts, startBot, startBot_try, started, truthy. split.
  - destruct (BOT_API_KEY penv) as [key|]; cbn; [|discriminate].
    destruct (String.eqb_spec key ""); cbn; [discriminate|].
    destruct (MONGO_DB_URI penv) as [uri|]; cbn; [|discriminate].
    destruct (String.eqb_spec uri ""); cbn; [discriminate|].
    destruct (connect uri) as [readyState|] eqn:Hc; cbn; [|discriminate].
    destruct (Nat.eqb_spec readyState 0); cbn; [discriminate|].
    intros _. exists key, uri, readyState. repeat split; assumption.
  - intros (key & uri & readyState & -> & Hkey & -> & Huri & Hc & Hready).
    apply String.eqb_neq in Hkey, Huri. rewrite Hkey, Huri. cbn.
    rewrite Hc. apply Nat.eqb_neq in Hready. rewrite Hready. reflexivity.
Qed.

(** X15.  A start-up that is not aborted at the API key connects to the
    database at most once, and only with the configured connection string;
    it either starts the bot and logs no error, or logs exactly one error,
    as its last event, and does not start the bot. *)
Theorem start_up_connects_once_and_reports (penv : ProcessEnv)
    (connect : string -> option nat) (events : list StartupEvent) :
  bot_ts penv connect = Loaded events ->
  (forall uri, In (MongooseConnect uri) events -> MONGO_DB_URI penv = Some uri) /\
  count_events (fun ev => match ev with MongooseConnect _ => true | _ => false end)
    (Loaded events) <= 1 /\
  (started (Loaded events) = true /\
   count_events (fun ev => match ev with StartupError _ _ => true | _ => false end)
     (Loaded events) = 0
   \/
   started (Loaded events) = false /\
   exists before message,
     events = before ++ [StartupError "Error in startBot:" message] /\
     count_events (fun ev => match ev with StartupError _ _ => true | _ => false end)
       (Loaded before) = 0).
Proof.
  unfold bot_ts, startBot, startBot_try.
  destruct (truthy (BOT_API_KEY penv)); cbn; [|discriminate].
  destruct (MONGO_DB_URI penv) as [uri|]; cbn.
  - destruct (truthy (Some uri)); cbn.
    + destruct (connect uri) as [readyState|]; cbn.
      * destruct (readyState =? 0); cbn; intros [= <-]; cbn;
          (split; [intros u Hin; in_cases Hin; congruence|]); (split; [lia|]);
          [ right; split; [reflexivity|];
            exists [SetMyCommands; MongooseConnect uri]; eexists; split; reflexivity
          | left; split; reflexivity ].
      * intros [= <-]; cbn.
        (split; [intros u Hin; in_cases Hin; congruence|]). (split; [lia|]).
        right. split; [reflexivity|].
        exists [SetMyCommands; MongooseConnect uri]. eexists. split; reflexivity.
    + intros [= <-]; cbn.
      (split; [intros u Hin; in_cases Hin|]). (split; [lia|]).
      right. split; [reflexivity|].
      exists [SetMyCommands]. eexists. split; reflexivity.
  - intros [= <-]; cbn.
    (split; [intros u Hin; in_cases Hin|]). (split; [lia|]).
    right. split; [reflexivity|].
    exists [SetMyCommands]. eexists. split; reflexivity.
Qed.


(** ** Runs of the further properties on the sample data *)

Lemma started_world_consistent : consistent started_world.
Proof.
  constructor; cbn.
  1-11: repeat constructor; cbn; try lia; try tauto; try (intros []).
  intros c [= <-]. now left.
Qed.

Lemma run_keeps_store_well_formed_witness :
  consistent empty_world /\
  NoDup (map telegramId (users (store (run sample_config first_contact empty_world)))) /\
  List.length (messages (store (run sample_config first_contact empty_world))) = 2.
Proof.
  split; [exact empty_world_consistent|]. split; [|reflexivity].
  exact (proj1 (proj2 (proj2 (proj2
    (run_keeps_store_well_formed sample_config first_contact empty_world
       empty_world_consistent))))).
Defined.

Lemma run_keeps_session_chat_stored_witness :
  consistent empty_world /\
  session_chatId (session (run sample_config first_contact empty_world)) = Some 1 /\
  find_chat (store (run sample_config first_contact empty_world)) 1 <> None /\
  conversation (run sample_config first_contact empty_world) = None /\
  edits_placeholder (next_ref (run sample_config first_contact empty_world)) LOADING
    (requests (handle_update sample_config (MessageText alice "again")) healthy
       (run sample_config first_contact empty_world)).
Proof.
  split; [exact empty_world_consistent|]. split; [reflexivity|].
  destruct (run_keeps_session_chat_stored sample_config first_contact empty_world
              healthy alice "again" empty_world_consistent) as [Hstored Hrouted].
  split; [exact (Hstored 1 eq_refl)|]. split; [reflexivity|].
  exact (Hrouted eq_refl).
Defined.

Lemma completion_history_ends_with_request_witness :
  (0 < MAX_HISTORY_LENGTH sample_config)%Z /\
  consistent started_world /\
  In (Completion [mkMessage 2 1 0 role_user "hi" 1] 42%Z "gpt-4o-mini")
     (requests (on_message_text sample_config alice "hi") healthy started_world) /\
  exists older m,
    [mkMessage 2 1 0 role_user "hi" 1] = older ++ [m] /\ content m = "hi".
Proof.
  assert (Hin : In (Completion [mkMessage 2 1 0 role_user "hi" 1] 42%Z "gpt-4o-mini")
                   (requests (on_message_text sample_config alice "hi") healthy
                      started_world))
    by (vm_compute; right; left; reflexivity).
  split; [reflexivity|]. split; [exact started_world_consistent|]. split; [exact Hin|].
  destruct (completion_history_ends_with_request sample_config healthy started_world alice
              "hi" _ _ _ eq_refl started_world_consistent Hin)
    as (_ & _ & older & m & Hh & _ & Hcontent & _).
  exists older, m. split; assumption.
Defined.

Lemma selected_model_is_requested_witness :
  isValidAiModel sample_config "gpt-4o" = true /\
  find_user (store started_world) (id alice) = Some alice_doc /\
  find_user
    (store (after (callbackQuery_model sample_config alice "gpt-4o" (Some 1)) healthy
              started_world))
    (id alice) = Some (with_model alice_doc "gpt-4o").
Proof.
  split; [reflexivity|]. split; [reflexivity|].
  exact (proj1 (selected_model_is_requested sample_config healthy healthy started_world
                  alice "gpt-4o" (Some 1) "hi" alice_doc
                  eq_refl eq_refl eq_refl eq_refl)).
Defined.



Lemma text_keeps_active_chat_witness :
  session_chatId (session started_world) <> None /\
  session (after (on_message_text sample_config alice "hi") healthy started_world) =
    session started_world.
Proof.
  assert (Hactive : session_chatId (session started_world) <> None) by discriminate.
  split; [exact Hactive|].
  exact (proj1 (text_keeps_active_chat sample_config healthy started_world alice "hi")
           Hactive).
Defined.


Lemma store_untouched_by_help_image_and_dialog_witness :
  IMAGE_QUALITY_CHANGE_AVAILABLE healthy = true /\
  isValidAiModel sample_config "hd" = false /\
  conversation (after (route sample_config CommandImage) healthy started_world) = None /\
  requests (route sample_config CommandImage) healthy started_world =
    [ReplyKeyboard 2 CHOOSE_QUALITY
       [("Standard", "standard"); ("HD", "hd");
        ("Отменить ❌", "cancelImageGeneration")]] /\
  store (after (route sample_config (CallbackQuery alice "hd" (Some 2))) healthy
           started_world) = store started_world.
Proof.
  split; [reflexivity|]. split; [reflexivity|].
  destruct (store_untouched_by_help_image_and_dialog sample_config healthy started_world)
    as (_ & _ & _ & _ & _ & _ & Himage & Hcallback).
  split; [exact (proj1 (Himage eq_refl))|].
  split; [exact (proj2 (Himage eq_refl)) | exact (Hcallback alice "hd" (Some 2) eq_refl)].
Defined.

Lemma new_chat_starts_with_empty_history_witness :
  (0 < MAX_HISTORY_LENGTH sample_config)%Z /\
  consistent started_world /\
  conversation started_world = None /\
  store_available healthy /\
  platform_available healthy /\
  find_user (store started_world) (id alice) <> None /\
  exists chat,
    chats (store (after (command_newchat alice) healthy started_world)) =
      [alice_chat; chat] /\
    session_chatId (session (after (command_newchat alice) healthy started_world)) =
      Some (chat_id chat) /\
    forall h t model,
      In (Completion h t model)
         (requests (handle_update sample_config (MessageText alice "hi")) healthy
            (after (command_newchat alice) healthy started_world)) ->
      exists m,
        h = [m] /\ role m = role_user /\ content m = "hi" /\ chatId m = chat_id chat.
Proof.
  assert (Hup : store_available healthy) by (intros c; reflexivity).
  assert (Hplatform : platform_available healthy) by (intros ev; reflexivity).
  assert (Hknown : find_user (store started_world) (id alice) <> None) by discriminate.
  split; [reflexivity|]. split; [exact started_world_consistent|].
  split; [reflexivity|]. split; [exact Hup|]. split; [exact Hplatform|].
  split; [exact Hknown|].
  destruct (new_chat_starts_with_empty_history sample_config healthy healthy started_world
              alice "hi" (command_newchat alice) eq_refl started_world_consistent
              eq_refl Hup Hplatform (or_intror (conj eq_refl Hknown)))
    as (chat & Hchats & _ & Hsession & Hhistory).
  exists chat. split; [exact Hchats|]. split; [exact Hsession | exact Hhistory].
Defined.

Lemma repeated_start_keeps_one_user_witness :
  store_available healthy /\
  platform_available healthy /\
  exists u,
    users (store (after (command_start sample_config alice) healthy
                    (after (command_start sample_config alice) healthy empty_world))) = [u].
Proof.
  assert (Hup : store_available healthy) by (intros c; reflexivity).
  assert (Hplatform : platform_available healthy) by (intros ev; reflexivity).
  split; [exact Hup|]. split; [exact Hplatform|].
  destruct (repeated_start_keeps_one_user sample_config healthy healthy empty_world alice
              Hup Hplatform)
    as (u & _ & Husers & _).
  eexists. rewrite Husers. reflexivity.
Defined.

Lemma start_up_connects_once_and_reports_witness :
  bot_ts (mkProcessEnv (Some "123456:token") (Some "mongodb://db")) (fun _ => Some 0) =
    Loaded [SetMyCommands; MongooseConnect "mongodb://db";
            StartupError "Error in startBot:" "Mongoose connection error"] /\
  forall uri,
    In (MongooseConnect uri)
       [SetMyCommands; MongooseConnect "mongodb://db";
        StartupError "Error in startBot:" "Mongoose connection error"] ->
    Some "mongodb://db" = Some uri.
Proof.
  split; [reflexivity|].
  exact (proj1 (start_up_connects_once_and_reports
                  (mkProcessEnv (Some "123456:token") (Some "mongodb://db"))
                  (fun _ => Some 0) _ eq_refl)).
Defined.


Lemma error_boundary_reports_refusal_witness :
  refuses (refusing_reply (HELP_MESSAGE sample_config) healthy)
    (Reply (next_ref started_world) (HELP_MESSAGE sample_config)) = Some HttpError /\
  requests (handle_update sample_config CommandHelp)
    (refusing_reply (HELP_MESSAGE sample_config) healthy) started_world =
    [LogError "Error while handling update"; LogError "Could not contact Telegram:";
     Reply 2 TRY_LATER].
Proof.
  split; [reflexivity|].
  exact (proj1 (proj2 (error_boundary_reports_refusal sample_config
                         (refusing_reply (HELP_MESSAGE sample_config) healthy)
                         started_world HttpError) eq_refl)).
Defined.
